(** * The Milvus index advisor ([tools/index_advisor/advisor.py])

    A shallow embedding of [IndexAdvisor]: the decision tree of [recommend],
    the per-family assemblers [_recommend_*] and the helper estimators, with
    the properties of the design document stated and settled against them.

    Modelling conventions.
    - Python [int] is [Z].
    - Python [float] is an exact rational [Q]: every formula of the advisor
      is a composition of [+], [*], [/] and [<] on constants and inputs, and
      the embedding computes them without rounding and without overflow.
      [int(x)] on a float truncates towards zero ([int_of_float]).
      The interpreter rounds to doubles, raises [OverflowError] on an
      integer beyond their range and accepts infinities and NaN: what
      depends on how a comparison of computed floats falls, or on which
      exception a call ends in, is therefore stated on the open form of
      the methods, for every float arithmetic, at a concrete input away
      from any tie, or under [ordinary_size], and not on the exact
      arithmetic.
    - [int(math.sqrt(n))] is the integer square root [Z.sqrt n] (the two
      agree below 2^52, and [recommend] takes roots of at most 10^8); for
      a negative argument [math.sqrt] raises [ValueError].
    - [math.log10] is not a rational function: it is a parameter ([log10])
      of the development, consulted on positive arguments only; on an
      argument [<= 0] the Python function raises [ValueError].
    - A [dict] of parameters is a [gmap string Z].
    - Exceptions are values of [PyError] carried by the [result] monad.
      The interpreter bounds the depth of nested calls and raises
      [RecursionError] beyond it: [depth] is the number of nested calls of
      the two mutually recursive assemblers that the interpreter still
      allows.
    - An f-string is kept as its template together with the interpolated
      value ([Reason]). *)

From Stdlib Require Import ZArith QArith Qround String List Decimal Lia Lqa.
From stdpp Require Import base option list gmap strings.

Local Open Scope Z_scope.

(** ** Data model *)

Inductive IndexType : Set :=
  | FLAT
  | HNSW
  | IVF_FLAT
  | IVF_SQ8
  | IVF_PQ
  | DISK_ANN
  | GPU_IVF_FLAT
  | GPU_IVF_PQ.

#[global] Instance IndexType_eq_dec : EqDecision IndexType.
Proof. solve_decision. Defined.

(** The exceptions the advisor can raise. *)
Inductive PyError : Set :=
  | RecursionError
  | ValueError.

Inductive result (A : Type) : Type :=
  | Ok (a : A)
  | Raise (e : PyError).

Arguments Ok {A} a.
Arguments Raise {A} e.

#[global] Instance result_ret : MRet result := fun _ a => Ok a.
#[global] Instance result_bind : MBind result := fun _ _ f m =>
  match m with
  | Ok a => f a
  | Raise e => Raise e
  end.

(** The [reason] strings: a fixed text, or one of the three f-string
    templates with the value it interpolates. *)
Inductive Reason : Type :=
  | Text (s : string)
  | SmallDataset (num_vectors : Z)
  | BillionScale (num_vectors : Z)
  | MemoryBudget (memory_gb : Q).

#[local] Set Warnings "-register-all".

Inductive Recommendation : Type := mkRecommendation {
  index_type : IndexType;
  params : gmap string Z;
  memory_gb : Q;
  build_time_min : Q;
  query_latency_p95 : Q;
  recall_at_10 : Q;
  reason : Reason;
  confidence : Q;
  alternatives : list Recommendation
}.

(** ** Numeric primitives *)

(** [a < b] on floats. *)
Definition Qltb (a b : Q) : bool :=
  Qnum a * Zpos (Qden b) <? Qnum b * Zpos (Qden a).

(** [int(x)]: truncation towards zero. *)
Definition int_of_float (x : Q) : Z := Z.quot (Qnum x) (Zpos (Qden x)).

(** [a / b] on two ints (true division). *)
Definition truediv (a b : Z) : Q := (inject_Z a / inject_Z b)%Q.

(** [int(math.sqrt(n))]. *)
Definition int_sqrt (n : Z) : result Z :=
  if n <? 0 then Raise ValueError else Ok (Z.sqrt n).

(** [1024**3] *)
Definition GiB : Z := 1024 ^ 3.

(** ** Helper methods *)

Definition _calculate_hnsw_m (num_vectors : Z) : Z :=
  if num_vectors <? 100000 then 8
  else if num_vectors <? 1000000 then 16
  else if num_vectors <? 10000000 then 24
  else 32.

(** The loop [for m in ms: if dimensions % m == 0: return m]; [None] when
    the loop falls through. *)
Fixpoint first_divisor (ms : list Z) (dimensions : Z) : option Z :=
  match ms with
  | [] => None
  | m :: ms' =>
      if dimensions mod m =? 0 then Some m else first_divisor ms' dimensions
  end.

Definition _calculate_pq_m (dimensions : Z) : Z :=
  match first_divisor [32; 16; 8; 4] dimensions with
  | Some m => m
  | None => 8
  end.

(** [M] is the optional argument [M: int = 16]. *)
Definition _estimate_hnsw_memory (num_vectors dimensions : Z) (M : option Z) : Q :=
  let M := default 16 M in
  let bytes_per_vector := (inject_Z (dimensions * 4) + inject_Z (M * 2) * 1.2)%Q in
  let total_bytes := (inject_Z num_vectors * bytes_per_vector)%Q in
  (total_bytes / inject_Z GiB)%Q.

Definition _estimate_build_time
    (num_vectors dimensions : Z) (index_type : string) (params : gmap string Z) : Q :=
  let base_time := truediv num_vectors 100000 in
  if bool_decide (index_type = "HNSW") then
    let M := default 16 (params !! "M") in
    (base_time * 3 * truediv M 16)%Q
  else if bool_decide (index_type = "IVF_FLAT") then
    (base_time * 2)%Q
  else if bool_decide (index_type = "IVF_PQ") then
    (base_time * 3)%Q
  else
    base_time.

Section Advisor.

(** The values of [math.log10] on positive integers. *)
Variable log10 : Z -> Q.

Definition math_log10 (n : Z) : result Q :=
  if n <=? 0 then Raise ValueError else Ok (log10 n).

Definition _estimate_latency
    (num_vectors : Z) (index_type : string) (params : gmap string Z) : result Q :=
  if bool_decide (index_type = "HNSW") then
    let ef := default 64 (params !! "ef") in
    l ← math_log10 num_vectors;
    mret (10 + l * 5 + truediv ef 64 * 10)%Q
  else if bool_decide (index_type = "IVF_FLAT") then
    let nprobe := default 32 (params !! "nprobe") in
    mret (15 + truediv nprobe 32 * 20)%Q
  else
    mret 20%Q.

(** ** Assemblers without alternatives *)

Definition _recommend_diskann
    (num_vectors dimensions : Z) (latency_requirement_ms : Q) : Recommendation :=
  let search_list_size := int_of_float (latency_requirement_ms / 2)%Q in
  let memory_gb := truediv (num_vectors * 100) GiB in
  let build_time_min := (truediv num_vectors 50000 * 5)%Q in
  let latency_p95 := (latency_requirement_ms * 1.5)%Q in
  let recall := 0.92%Q in
  {| index_type := DISK_ANN;
     params := {["search_list_size" := search_list_size]};
     memory_gb := memory_gb;
     build_time_min := build_time_min;
     query_latency_p95 := latency_p95;
     recall_at_10 := recall;
     reason := BillionScale num_vectors;
     confidence := 0.90%Q;
     alternatives := [] |}.

Definition _recommend_flat (num_vectors dimensions : Z) : Recommendation :=
  let memory_gb := truediv (num_vectors * dimensions * 4) GiB in
  let build_time_min := 0.1%Q in
  let latency_p95 := 5%Q in
  let recall := 1.0%Q in
  {| index_type := FLAT;
     params := ∅;
     memory_gb := memory_gb;
     build_time_min := build_time_min;
     query_latency_p95 := latency_p95;
     recall_at_10 := recall;
     reason := SmallDataset num_vectors;
     confidence := 0.99%Q;
     alternatives := [] |}.

Definition _recommend_ivf_sq8 (num_vectors dimensions : Z) : result Recommendation :=
  nlist ← int_sqrt num_vectors;
  mret {| index_type := IVF_SQ8;
          params := <["nprobe" := Z.max 16 (int_of_float (inject_Z nlist * 0.1)%Q)]>
                      {["nlist" := nlist]};
          memory_gb := (truediv (num_vectors * dimensions * 4) GiB * 0.6)%Q;
          build_time_min := (truediv num_vectors 90000 * 2.5)%Q;
          query_latency_p95 := (12 + truediv num_vectors 1000000 * 5.5)%Q;
          recall_at_10 := 0.95%Q;
          reason := Text "Good balance of memory and accuracy";
          confidence := 0.87%Q;
          alternatives := [] |}.

Definition _recommend_gpu_ivf
    (num_vectors dimensions : Z) (memory_budget_gb : Q) : result Recommendation :=
  nlist ← int_sqrt num_vectors;
  mret {| index_type := GPU_IVF_FLAT;
          params := <["nprobe" := 64]> {["nlist" := nlist]};
          memory_gb := (truediv (num_vectors * dimensions * 4) GiB * 1.2)%Q;
          build_time_min := truediv num_vectors 500000;
          query_latency_p95 := 5%Q;
          recall_at_10 := 0.98%Q;
          reason := Text "High QPS requirement with GPU available";
          confidence := 0.91%Q;
          alternatives := [] |}.

Definition _recommend_ivf_pq (num_vectors dimensions : Z) : result Recommendation :=
  nlist ← int_sqrt num_vectors;
  let nlist := Z.max 128 (Z.min nlist 16384) in
  let m := _calculate_pq_m dimensions in
  let nbits := 8 in
  let nprobe := Z.max 32 (int_of_float (inject_Z nlist * 0.15)%Q) in
  let memory_gb := (truediv (num_vectors * dimensions * 4) GiB * 0.25)%Q in
  let build_time_min := (truediv num_vectors 80000 * 3)%Q in
  let latency_p95 := (15 + truediv num_vectors 1000000 * 6)%Q in
  let recall := 0.90%Q in
  alt1 ← _recommend_ivf_sq8 num_vectors dimensions;
  let alt2 := _recommend_diskann num_vectors dimensions 100 in
  mret {| index_type := IVF_PQ;
          params := <["nprobe" := nprobe]> (<["nbits" := nbits]>
                      (<["m" := m]> {["nlist" := nlist]}));
          memory_gb := memory_gb;
          build_time_min := build_time_min;
          query_latency_p95 := latency_p95;
          recall_at_10 := recall;
          reason := MemoryBudget memory_gb;
          confidence := 0.85%Q;
          alternatives := [alt1; alt2] |}.

(** ** The two assemblers that nest each other

    [_recommend_hnsw] lists [_recommend_ivf_flat] among its alternatives and
    [_recommend_ivf_flat] lists [_recommend_hnsw]. Each method is split at
    its [alternatives = [...]] statement: the [_body] is everything computed
    before it, returning the final [Recommendation(...)] construction as a
    function of the alternatives. *)

Definition _recommend_hnsw_body
    (num_vectors dimensions : Z) : result (list Recommendation -> Recommendation) :=
  let M := _calculate_hnsw_m num_vectors in
  let ef_construction := M * 15 in
  let ef := M * 4 in
  let memory_gb := _estimate_hnsw_memory num_vectors dimensions (Some M) in
  let build_time_min :=
    _estimate_build_time num_vectors dimensions "HNSW" {["M" := M]} in
  latency_p95 ← _estimate_latency num_vectors "HNSW" {["ef" := ef]};
  let recall := 0.95%Q in
  mret (fun alternatives =>
    {| index_type := HNSW;
       params := <["ef" := ef]> (<["efConstruction" := ef_construction]> {["M" := M]});
       memory_gb := memory_gb;
       build_time_min := build_time_min;
       query_latency_p95 := latency_p95;
       recall_at_10 := recall;
       reason := Text "Low latency requirement (<30ms) with sufficient memory";
       confidence := 0.92%Q;
       alternatives := alternatives |}).

Definition _recommend_ivf_flat_body
    (num_vectors dimensions : Z) : result (list Recommendation -> Recommendation) :=
  nlist ← int_sqrt num_vectors;
  let nlist := Z.max 128 (Z.min nlist 16384) in
  let nprobe := Z.max 16 (int_of_float (inject_Z nlist * 0.1)%Q) in
  let memory_gb := (truediv (num_vectors * dimensions * 4) GiB * 1.1)%Q in
  let build_time_min := (truediv num_vectors 100000 * 2)%Q in
  let latency_p95 := (10 + truediv num_vectors 1000000 * 5)%Q in
  let recall := 0.98%Q in
  mret (fun alternatives =>
    {| index_type := IVF_FLAT;
       params := <["nprobe" := nprobe]> {["nlist" := nlist]};
       memory_gb := memory_gb;
       build_time_min := build_time_min;
       query_latency_p95 := latency_p95;
       recall_at_10 := recall;
       reason := Text "Balanced performance and memory usage";
       confidence := 0.88%Q;
       alternatives := alternatives |}).

Fixpoint _recommend_hnsw (depth : nat) (num_vectors dimensions : Z) {struct depth}
    : result Recommendation :=
  match depth with
  | O => Raise RecursionError
  | S depth =>
      build ← _recommend_hnsw_body num_vectors dimensions;
      alt1 ← _recommend_ivf_flat depth num_vectors dimensions;
      let alt2 := _recommend_diskann num_vectors dimensions 100 in
      mret (build [alt1; alt2])
  end
with _recommend_ivf_flat (depth : nat) (num_vectors dimensions : Z) {struct depth}
    : result Recommendation :=
  match depth with
  | O => Raise RecursionError
  | S depth =>
      build ← _recommend_ivf_flat_body num_vectors dimensions;
      alt1 ← _recommend_hnsw depth num_vectors dimensions;
      alt2 ← _recommend_ivf_sq8 num_vectors dimensions;
      mret (build [alt1; alt2])
  end.

(** ** The decision tree *)

Definition recommend
    (depth : nat) (num_vectors dimensions : Z)
    (latency_requirement_ms memory_budget_gb : Q)
    (qps_target : Z) (use_case : string) (has_gpu : bool) : result Recommendation :=
  if num_vectors <? 10000 then
    mret (_recommend_flat num_vectors dimensions)
  else if 100000000 <? num_vectors then
    mret (_recommend_diskann num_vectors dimensions latency_requirement_ms)
  else
    let hnsw_memory := _estimate_hnsw_memory num_vectors dimensions None in
    if Qltb latency_requirement_ms 30
       && Qltb hnsw_memory (memory_budget_gb * 0.8) then
      _recommend_hnsw depth num_vectors dimensions
    else if (5000 <? qps_target) && has_gpu then
      _recommend_gpu_ivf num_vectors dimensions memory_budget_gb
    else if Qltb memory_budget_gb (hnsw_memory * 0.5) then
      _recommend_ivf_pq num_vectors dimensions
    else if Qltb memory_budget_gb (hnsw_memory * 0.7) then
      _recommend_ivf_sq8 num_vectors dimensions
    else
      _recommend_ivf_flat depth num_vectors dimensions.

(** The call [recommend] makes for each family it can select; the class has
    no method for [GPU_IVF_PQ]. *)
Definition assembler
    (depth : nat) (num_vectors dimensions : Z)
    (latency_requirement_ms memory_budget_gb : Q)
    (f : IndexType) : option (result Recommendation) :=
  match f with
  | FLAT => Some (Ok (_recommend_flat num_vectors dimensions))
  | DISK_ANN =>
      Some (Ok (_recommend_diskann num_vectors dimensions latency_requirement_ms))
  | HNSW => Some (_recommend_hnsw depth num_vectors dimensions)
  | GPU_IVF_FLAT => Some (_recommend_gpu_ivf num_vectors dimensions memory_budget_gb)
  | IVF_PQ => Some (_recommend_ivf_pq num_vectors dimensions)
  | IVF_SQ8 => Some (_recommend_ivf_sq8 num_vectors dimensions)
  | IVF_FLAT => Some (_recommend_ivf_flat depth num_vectors dimensions)
  | GPU_IVF_PQ => None
  end.

End Advisor.

(** A runnable instance of the [log10] parameter, for evaluating the model
    on examples: the integer part of the decimal logarithm (the number of
    decimal digits, less one). *)
Definition log10_floor (n : Z) : Q :=
  inject_Z (Z.of_nat (nb_digits (Pos.to_uint (Z.to_pos n))) - 1).

(** The interpreter's default recursion limit. *)
Definition recursion_limit : nat := 1000.

(** ** The design document's words

    Definitions that follow the design document rather than the code; the
    theorems below compare them with the embedding. *)

(** Section 4.1, [select(requirement) -> IndexFamily]: the six ordered
    rules, with the graph degree used by the HNSW memory probe left as a
    parameter of the chain. *)
Definition select_family
    (degree : Z -> Z) (num_vectors dimensions : Z)
    (latency_requirement_ms memory_budget_gb : Q)
    (qps_target : Z) (has_gpu : bool) : IndexType :=
  let probe :=
    _estimate_hnsw_memory num_vectors dimensions (Some (degree num_vectors)) in
  if num_vectors <? 10000 then FLAT
  else if 100000000 <? num_vectors then DISK_ANN
  else if Qltb latency_requirement_ms 30
          && Qltb probe (0.8 * memory_budget_gb) then HNSW
  else if (5000 <? qps_target) && has_gpu then GPU_IVF_FLAT
  else if Qltb memory_budget_gb (0.5 * probe) then IVF_PQ
  else if Qltb memory_budget_gb (0.7 * probe) then IVF_SQ8
  else IVF_FLAT.

(** [clamp(x, lo, hi)]. *)
Definition clamp (x lo hi : Z) : Z := Z.max lo (Z.min x hi).

(** [round(x)]: the nearest integer (a tie goes up). *)
Definition round_nearest (x : Q) : Z := Qfloor (x + 0.5).

(** [round(sqrt(n))]: the integer nearest to the square root. *)
Definition round_sqrt (n : Z) : Z :=
  let s := Z.sqrt n in
  if s * s + s <? n then s + 1 else s.

(** Section 4.2, IVF_FLAT / IVF_SQ8. *)
Definition nlist_spec (num_vectors : Z) : Z := clamp (round_sqrt num_vectors) 128 16384.
Definition nprobe_spec (nlist : Z) : Z := Z.max 16 (round_nearest (0.1 * inject_Z nlist)).

(** A requirement is valid when its four sized fields are positive. *)
Definition valid_requirement
    (num_vectors dimensions : Z) (latency_requirement_ms memory_budget_gb : Q) : Prop :=
  0 < num_vectors /\ 0 < dimensions /\
  (0 < latency_requirement_ms)%Q /\ (0 < memory_budget_gb)%Q.

(** The seven families that have an assembler. *)
Definition implemented (f : IndexType) : Prop := f <> GPU_IVF_PQ.

(** ** The command-line front end ([tools/index_advisor/cli.py])

    [main] prompts for the seven answers, calls [recommend] on them and
    prints the recommendation. The prompts and the printing are not
    modelled; what is modelled is what [main] computes from the answers:
    the latency requirement looked up from the chosen label, the call of
    [recommend], the two status cells of the performance table and the
    alternatives it lists. *)

(** The dictionary from the latency choice to milliseconds. *)
Definition latency_table : gmap string Z :=
  list_to_map
    [("< 10ms (real-time)", 10);
     ("< 30ms (interactive)", 30);
     ("< 50ms (responsive)", 50);
     ("< 100ms (acceptable)", 100);
     ("> 100ms (batch)", 200)].

(** [main] from the answers to the recommendation; [None] is the
    [KeyError] of a label that is not in the dictionary. *)
Definition cli_recommend
    (log10 : Z -> Q) (depth : nat) (num_vectors dimensions : Z) (latency : string)
    (memory_gb : Q) (qps_target : Z) (use_case : string) (has_gpu : bool)
    : option (result Recommendation) :=
  latency_ms ← latency_table !! latency;
  Some (recommend log10 depth num_vectors dimensions (inject_Z latency_ms)
          memory_gb qps_target use_case has_gpu).

(** The status of the "Memory" row: [rec.memory_gb < memory_gb]. *)
Definition cli_memory_ok (rec : Recommendation) (budget_gb : Q) : bool :=
  Qltb (memory_gb rec) budget_gb.

(** The status of the "Query Latency (p95)" row:
    [rec.query_latency_p95 < latency_ms * 1.2]. *)
Definition cli_latency_ok (rec : Recommendation) (latency_ms : Z) : bool :=
  Qltb (query_latency_p95 rec) (inject_Z latency_ms * 1.2).

(** The alternatives listed: [rec.alternatives[:2]]. *)
Definition cli_alternatives (rec : Recommendation) : list Recommendation :=
  take 2 (alternatives rec).

(** ** The open form of the methods

    A method reaches the other methods of the class through [self], and
    the floats it compares are those of the interpreter. The open form of
    a method takes what it reaches through [self], and for [recommend] the
    float arithmetic too, as parameters: what is proved of it holds for
    every float arithmetic, rounding included, and for every outcome of
    the methods called, exceptions of any kind included. The closed
    definitions above are instances of the open ones
    ([recommend_open_index_advisor], [recommend_hnsw_open_closed],
    [recommend_ivf_flat_open_closed]). *)

(** An integer of ordinary size: every product of such integers that the
    advisor converts to a float is far inside the range of floats. *)
Definition ordinary_size (z : Z) : Prop := Z.abs z <= 2 ^ 62.

(** The outcome of a call: a value or an exception of some type [E]. *)
Inductive outcome (E A : Type) : Type :=
  | Returns (a : A)
  | Raises (e : E).

Arguments Returns {E A} a.
Arguments Raises {E A} e.

(** The float arithmetic [recommend] uses: [<], [*] and the float a
    decimal literal denotes. *)
Record FloatOps (F : Type) : Type := mkFloatOps {
  flt : F -> F -> bool;
  fmul : F -> F -> F;
  flit : Q -> F
}.

Arguments flt {F} _ _ _.
Arguments fmul {F} _ _ _.
Arguments flit {F} _ _.

(** The methods [recommend] calls through [self]. *)
Record Advisor (F E Rec : Type) : Type := mkAdvisor {
  self_recommend_flat : Z -> Z -> outcome E Rec;
  self_recommend_diskann : Z -> Z -> F -> outcome E Rec;
  self_estimate_hnsw_memory : Z -> Z -> option Z -> outcome E F;
  self_recommend_hnsw : Z -> Z -> outcome E Rec;
  self_recommend_gpu_ivf : Z -> Z -> F -> outcome E Rec;
  self_recommend_ivf_pq : Z -> Z -> outcome E Rec;
  self_recommend_ivf_sq8 : Z -> Z -> outcome E Rec;
  self_recommend_ivf_flat : Z -> Z -> outcome E Rec
}.

Arguments self_recommend_flat {F E Rec} _ _ _.
Arguments self_recommend_diskann {F E Rec} _ _ _ _.
Arguments self_estimate_hnsw_memory {F E Rec} _ _ _ _.
Arguments self_recommend_hnsw {F E Rec} _ _ _.
Arguments self_recommend_gpu_ivf {F E Rec} _ _ _ _.
Arguments self_recommend_ivf_pq {F E Rec} _ _ _.
Arguments self_recommend_ivf_sq8 {F E Rec} _ _ _.
Arguments self_recommend_ivf_flat {F E Rec} _ _ _.


(** [recommend], lines 92 to 124. *)
Definition recommend_open {F E Rec : Type}
    (float : FloatOps F) (self : Advisor F E Rec)
    (num_vectors dimensions : Z) (latency_requirement_ms memory_budget_gb : F)
    (qps_target : Z) (use_case : string) (has_gpu : bool) : outcome E Rec :=
  if num_vectors <? 10000 then
    self_recommend_flat self num_vectors dimensions
  else if 100000000 <? num_vectors then
    self_recommend_diskann self num_vectors dimensions latency_requirement_ms
  else
    match self_estimate_hnsw_memory self num_vectors dimensions None with
    | Raises e => Raises e
    | Returns hnsw_memory =>
        if flt float latency_requirement_ms (flit float 30)
           && flt float hnsw_memory (fmul float memory_budget_gb (flit float 0.8)) then
          self_recommend_hnsw self num_vectors dimensions
        else if (5000 <? qps_target) && has_gpu then
          self_recommend_gpu_ivf self num_vectors dimensions memory_budget_gb
        else if flt float memory_budget_gb (fmul float hnsw_memory (flit float 0.5)) then
          self_recommend_ivf_pq self num_vectors dimensions
        else if flt float memory_budget_gb (fmul float hnsw_memory (flit float 0.7)) then
          self_recommend_ivf_sq8 self num_vectors dimensions
        else
          self_recommend_ivf_flat self num_vectors dimensions
    end.

(** A call that returns a recommendation of family [f]. *)
Definition returns_family (f : IndexType) (c : result Recommendation) : Prop :=
  exists r, c = Ok r /\ index_type r = f.

(** The closed embedding as an instance: exact arithmetic and the methods
    defined above. *)
Definition to_outcome {A : Type} (r : result A) : outcome PyError A :=
  match r with
  | Ok a => Returns a
  | Raise e => Raises e
  end.

Definition Q_floats : FloatOps Q :=
  {| flt := Qltb; fmul := Qmult; flit := fun q => q |}.

Definition index_advisor (log10 : Z -> Q) (depth : nat)
    : Advisor Q PyError Recommendation :=
  {| self_recommend_flat := fun n d => Returns (_recommend_flat n d);
     self_recommend_diskann := fun n d lat => Returns (_recommend_diskann n d lat);
     self_estimate_hnsw_memory := fun n d M => Returns (_estimate_hnsw_memory n d M);
     self_recommend_hnsw := fun n d => to_outcome (_recommend_hnsw log10 depth n d);
     self_recommend_gpu_ivf := fun n d mem => to_outcome (_recommend_gpu_ivf n d mem);
     self_recommend_ivf_pq := fun n d => to_outcome (_recommend_ivf_pq n d);
     self_recommend_ivf_sq8 := fun n d => to_outcome (_recommend_ivf_sq8 n d);
     self_recommend_ivf_flat :=
       fun n d => to_outcome (_recommend_ivf_flat log10 depth n d) |}.

(** [_recommend_hnsw], lines 126 to 168, with [self._recommend_ivf_flat]
    as a parameter. *)
Definition _recommend_hnsw_open
    (log10 : Z -> Q) (self_recommend_ivf_flat : Z -> Z -> result Recommendation)
    (num_vectors dimensions : Z) : result Recommendation :=
  let M := _calculate_hnsw_m num_vectors in
  let ef_construction := M * 15 in
  let ef := M * 4 in
  let memory_gb := _estimate_hnsw_memory num_vectors dimensions (Some M) in
  let build_time_min :=
    _estimate_build_time num_vectors dimensions "HNSW" {["M" := M]} in
  latency_p95 ← _estimate_latency log10 num_vectors "HNSW" {["ef" := ef]};
  let recall := 0.95%Q in
  alt1 ← self_recommend_ivf_flat num_vectors dimensions;
  let alt2 := _recommend_diskann num_vectors dimensions 100 in
  mret {| index_type := HNSW;
          params := <["ef" := ef]> (<["efConstruction" := ef_construction]> {["M" := M]});
          memory_gb := memory_gb;
          build_time_min := build_time_min;
          query_latency_p95 := latency_p95;
          recall_at_10 := recall;
          reason := Text "Low latency requirement (<30ms) with sufficient memory";
          confidence := 0.92%Q;
          alternatives := [alt1; alt2] |}.

(** [_recommend_ivf_flat], lines 170 to 208, with [self._recommend_hnsw]
    as a parameter. *)
Definition _recommend_ivf_flat_open
    (self_recommend_hnsw : Z -> Z -> result Recommendation)
    (num_vectors dimensions : Z) : result Recommendation :=
  nlist ← int_sqrt num_vectors;
  let nlist := Z.max 128 (Z.min nlist 16384) in
  let nprobe := Z.max 16 (int_of_float (inject_Z nlist * 0.1)%Q) in
  let memory_gb := (truediv (num_vectors * dimensions * 4) GiB * 1.1)%Q in
  let build_time_min := (truediv num_vectors 100000 * 2)%Q in
  let latency_p95 := (10 + truediv num_vectors 1000000 * 5)%Q in
  let recall := 0.98%Q in
  alt1 ← self_recommend_hnsw num_vectors dimensions;
  alt2 ← _recommend_ivf_sq8 num_vectors dimensions;
  mret {| index_type := IVF_FLAT;
          params := <["nprobe" := nprobe]> {["nlist" := nlist]};
          memory_gb := memory_gb;
          build_time_min := build_time_min;
          query_latency_p95 := latency_p95;
          recall_at_10 := recall;
          reason := Text "Balanced performance and memory usage";
          confidence := 0.88%Q;
          alternatives := [alt1; alt2] |}.

(** ** Basic facts *)

Ltac unbind := unfold mbind, mret, result_bind, result_ret in *.

Lemma Qltb_lt (a b : Q) : Qltb a b = true <-> (a < b)%Q.
Proof. unfold Qltb, Qlt. apply Z.ltb_lt. Qed.

Lemma Qltb_spec (a b : Q) : reflect (a < b)%Q (Qltb a b).
Proof. apply iff_reflect. symmetry. apply Qltb_lt. Qed.

Lemma Qltb_proper (a a' b b' : Q) :
  (a == a')%Q -> (b == b')%Q -> Qltb a b = Qltb a' b'.
Proof.
  intros Ha Hb.
  destruct (Qltb_spec a b) as [H|H], (Qltb_spec a' b') as [H'|H']; try reflexivity.
  - rewrite Ha, Hb in H. contradiction.
  - rewrite <- Ha, <- Hb in H'. contradiction.
Qed.

Lemma int_sqrt_nonneg (n : Z) : 0 <= n -> int_sqrt n = Ok (Z.sqrt n).
Proof. intros H. unfold int_sqrt. destruct (Z.ltb_spec n 0); [lia | reflexivity]. Qed.

Lemma int_sqrt_inv (n s : Z) : int_sqrt n = Ok s -> 0 <= n /\ s = Z.sqrt n.
Proof.
  unfold int_sqrt. destruct (Z.ltb_spec n 0) as [Hn|Hn]; intros E; inversion E.
  split; [lia | reflexivity].
Qed.

(** [int(nlist * 0.1)] is the integer quotient by ten. *)
Lemma int_of_tenth (nlist : Z) :
  0 <= nlist -> int_of_float (inject_Z nlist * 0.1)%Q = nlist / 10.
Proof.
  intros H. unfold int_of_float. cbn [Qmult Qnum Qden inject_Z].
  rewrite Z.mul_1_r. change (Z.pos (1 * 10)) with 10.
  apply Z.quot_div_nonneg; lia.
Qed.

(** ** The nested assemblers never return *)

Section Nesting.

Variable log10 : Z -> Q.

Lemma hnsw_body_positive (n d : Z) :
  0 < n -> exists build, _recommend_hnsw_body log10 n d = Ok build.
Proof.
  intros Hn. unfold _recommend_hnsw_body, _estimate_latency, math_log10.
  rewrite bool_decide_eq_true_2 by reflexivity.
  destruct (Z.leb_spec n 0); [lia|]. unbind. eauto.
Qed.

Lemma ivf_flat_body_nonneg (n d : Z) :
  0 <= n -> exists build, _recommend_ivf_flat_body n d = Ok build.
Proof.
  intros Hn. unfold _recommend_ivf_flat_body. rewrite int_sqrt_nonneg by assumption.
  unbind. eauto.
Qed.

(** Whatever the depth the interpreter grants, neither method returns. *)
Lemma nested_assemblers_raise (depth : nat) (n d : Z) :
  (exists e, _recommend_hnsw log10 depth n d = Raise e) /\
  (exists e, _recommend_ivf_flat log10 depth n d = Raise e).
Proof.
  induction depth as [|k [[e1 IHh] [e2 IHf]]]; cbn [_recommend_hnsw _recommend_ivf_flat].
  - split; eauto.
  - split.
    + destruct (_recommend_hnsw_body log10 n d) as [build|e]; unbind; [|eauto].
      rewrite IHf. eauto.
    + destruct (_recommend_ivf_flat_body n d) as [build|e]; unbind; [|eauto].
      rewrite IHh. eauto.
Qed.

(** On a positive dataset size the failure is the recursion overflow. *)
Lemma nested_assemblers_overflow (depth : nat) (n d : Z) :
  0 < n ->
  _recommend_hnsw log10 depth n d = Raise RecursionError /\
  _recommend_ivf_flat log10 depth n d = Raise RecursionError.
Proof.
  intros Hn.
  induction depth as [|k [IHh IHf]]; cbn [_recommend_hnsw _recommend_ivf_flat].
  - split; reflexivity.
  - destruct (hnsw_body_positive n d Hn) as [bh ->].
    destruct (ivf_flat_body_nonneg n d ltac:(lia)) as [bf ->].
    unbind. rewrite IHh, IHf. split; reflexivity.
Qed.

End Nesting.

(** ** What each assembler returns *)

Lemma ivf_sq8_inv (n d : Z) (r : Recommendation) :
  _recommend_ivf_sq8 n d = Ok r ->
  0 <= n /\ index_type r = IVF_SQ8 /\ alternatives r = [] /\
  params r !! "nlist" = Some (Z.sqrt n) /\
  params r !! "nprobe" = Some (Z.max 16 (Z.sqrt n / 10)).
Proof.
  unfold _recommend_ivf_sq8. destruct (int_sqrt n) as [s|e] eqn:Hs; unbind; [|discriminate].
  apply int_sqrt_inv in Hs as [Hn ->]. intros [= <-]. cbn [index_type alternatives params].
  rewrite int_of_tenth by apply Z.sqrt_nonneg.
  repeat split; assumption || reflexivity.
Qed.

Lemma gpu_ivf_inv (n d : Z) (mem : Q) (r : Recommendation) :
  _recommend_gpu_ivf n d mem = Ok r ->
  0 <= n /\ index_type r = GPU_IVF_FLAT /\ alternatives r = [].
Proof.
  unfold _recommend_gpu_ivf. destruct (int_sqrt n) as [s|e] eqn:Hs; unbind; [|discriminate].
  apply int_sqrt_inv in Hs as [Hn ->]. intros [= <-]. repeat split; assumption || reflexivity.
Qed.

Lemma ivf_pq_inv (n d : Z) (r : Recommendation) :
  _recommend_ivf_pq n d = Ok r ->
  0 <= n /\ index_type r = IVF_PQ /\
  exists a, _recommend_ivf_sq8 n d = Ok a /\
            alternatives r = [a; _recommend_diskann n d 100].
Proof.
  unfold _recommend_ivf_pq. destruct (int_sqrt n) as [s|e] eqn:Hs; unbind; [|discriminate].
  apply int_sqrt_inv in Hs as [Hn ->].
  destruct (_recommend_ivf_sq8 n d) as [a|e]; [|discriminate].
  intros [= <-]. split; [assumption|]. split; [reflexivity|].
  exists a. split; reflexivity.
Qed.

Section Dispatch.

Variable log10 : Z -> Q.
Variables (depth : nat) (n d : Z) (lat mem : Q) (qps : Z) (uc : string) (gpu : bool).

(** A method that returns, returns a recommendation of its own family. *)
Lemma assembler_family (f : IndexType) (r : Recommendation) :
  assembler log10 depth n d lat mem f = Some (Ok r) -> index_type r = f.
Proof.
  destruct f; cbn [assembler]; intros [= H].
  - subst r. reflexivity.
  - destruct (nested_assemblers_raise log10 depth n d) as [[e He] _]. congruence.
  - destruct (nested_assemblers_raise log10 depth n d) as [_ [e He]]. congruence.
  - apply ivf_sq8_inv in H. tauto.
  - apply ivf_pq_inv in H. tauto.
  - subst r. reflexivity.
  - apply gpu_ivf_inv in H. tauto.
Qed.

(** [recommend] is the rule chain of section 4.1 run with the probe at
    degree 16, followed by the call of the selected family's method. *)
Lemma recommend_dispatch :
  assembler log10 depth n d lat mem (select_family (fun _ => 16) n d lat mem qps gpu)
  = Some (recommend log10 depth n d lat mem qps uc gpu).
Proof.
  unfold recommend, select_family.
  change (_estimate_hnsw_memory n d None) with (_estimate_hnsw_memory n d (Some 16)).
  set (probe := _estimate_hnsw_memory n d (Some 16)).
  rewrite (Qltb_proper probe probe (0.8 * mem) (mem * 0.8))
    by (reflexivity || apply Qmult_comm).
  rewrite (Qltb_proper mem mem (0.5 * probe) (probe * 0.5))
    by (reflexivity || apply Qmult_comm).
  rewrite (Qltb_proper mem mem (0.7 * probe) (probe * 0.7))
    by (reflexivity || apply Qmult_comm).
  destruct (n <? 10000); [reflexivity|].
  destruct (100000000 <? n); [reflexivity|].
  destruct (Qltb lat 30 && Qltb probe (mem * 0.8)); [reflexivity|].
  destruct ((5000 <? qps) && gpu); [reflexivity|].
  destruct (Qltb mem (probe * 0.5)); [reflexivity|].
  destruct (Qltb mem (probe * 0.7)); reflexivity.
Qed.

Lemma recommend_family (r : Recommendation) :
  recommend log10 depth n d lat mem qps uc gpu = Ok r ->
  index_type r = select_family (fun _ => 16) n d lat mem qps gpu.
Proof.
  intros H. apply assembler_family. rewrite recommend_dispatch, H. reflexivity.
Qed.

End Dispatch.

(** ** The decision tree, rule by rule *)

Lemma andb_Qltb_spec (a b c e : Q) :
  reflect ((a < b)%Q /\ (c < e)%Q) (Qltb a b && Qltb c e).
Proof.
  destruct (Qltb_spec a b), (Qltb_spec c e); constructor; tauto.
Qed.

Lemma gpu_rule_spec (qps : Z) (gpu : bool) :
  reflect (5000 < qps /\ gpu = true) ((5000 <? qps) && gpu).
Proof.
  destruct (Z.ltb_spec0 5000 qps), gpu; constructor;
    intuition (discriminate || lia).
Qed.

(** The closed definitions are the open ones at the exact arithmetic and
    at the methods of the class. *)
Lemma recommend_open_index_advisor
    (log10 : Z -> Q) (depth : nat) (n d : Z) (lat mem : Q)
    (qps : Z) (uc : string) (gpu : bool) :
  to_outcome (recommend log10 depth n d lat mem qps uc gpu)
  = recommend_open Q_floats (index_advisor log10 depth) n d lat mem qps uc gpu.
Proof.
  unfold recommend, recommend_open.
  cbn [index_advisor self_recommend_flat self_recommend_diskann
       self_estimate_hnsw_memory self_recommend_hnsw self_recommend_gpu_ivf
       self_recommend_ivf_pq self_recommend_ivf_sq8 self_recommend_ivf_flat
       Q_floats flt fmul flit].
  repeat match goal with |- context [if ?b then _ else _] => destruct b end;
    reflexivity.
Qed.

Lemma recommend_hnsw_open_closed (log10 : Z -> Q) (depth : nat) (n d : Z) :
  _recommend_hnsw log10 (S depth) n d
  = _recommend_hnsw_open log10 (_recommend_ivf_flat log10 depth) n d.
Proof.
  cbn [_recommend_hnsw]. unfold _recommend_hnsw_open, _recommend_hnsw_body.
  destruct (_estimate_latency log10 n "HNSW" _) as [l|e]; unbind; [|reflexivity].
  destruct (_recommend_ivf_flat log10 depth n d); reflexivity.
Qed.

Lemma recommend_ivf_flat_open_closed (log10 : Z -> Q) (depth : nat) (n d : Z) :
  _recommend_ivf_flat log10 (S depth) n d
  = _recommend_ivf_flat_open (_recommend_hnsw log10 depth) n d.
Proof.
  cbn [_recommend_ivf_flat]. unfold _recommend_ivf_flat_open, _recommend_ivf_flat_body.
  destruct (int_sqrt n) as [s|e]; unbind; [|reflexivity].
  destruct (_recommend_hnsw log10 depth n d); [|reflexivity].
  destruct (_recommend_ivf_sq8 n d); reflexivity.
Qed.

(** The family each method of the class builds, on a dataset that gets
    past rules 1 and 2: the three methods without nesting return one of
    their family, and each of the two nested ones returns one of its family
    whenever the method it nests returns. *)
Lemma method_families
    (log10 : Z -> Q) (n d : Z) (lat mem : Q)
    (nested : Z -> Z -> result Recommendation) (alt : Recommendation) :
  index_type (_recommend_flat n d) = FLAT /\
  index_type (_recommend_diskann n d lat) = DISK_ANN /\
  (10000 <= n <= 100000000 -> ordinary_size d ->
   returns_family GPU_IVF_FLAT (_recommend_gpu_ivf n d mem) /\
   returns_family IVF_PQ (_recommend_ivf_pq n d) /\
   returns_family IVF_SQ8 (_recommend_ivf_sq8 n d) /\
   (nested n d = Ok alt ->
    returns_family HNSW (_recommend_hnsw_open log10 nested n d) /\
    returns_family IVF_FLAT (_recommend_ivf_flat_open nested n d))).
Proof.
  split; [reflexivity|]. split; [reflexivity|]. intros Hn _.
  unfold returns_family, _recommend_gpu_ivf, _recommend_ivf_pq, _recommend_ivf_sq8,
    _recommend_hnsw_open, _recommend_ivf_flat_open, _estimate_latency, math_log10.
  rewrite int_sqrt_nonneg by lia. rewrite bool_decide_eq_true_2 by reflexivity.
  destruct (Z.leb_spec n 0); [lia|]. unbind.
  repeat split; try (eexists; split; reflexivity).
  all: match goal with H : _ = Ok _ |- _ => rewrite H end;
    unfold _recommend_ivf_sq8; rewrite ?int_sqrt_nonneg by lia; unbind;
    eexists; split; reflexivity.
Qed.

(** C3. Whatever the float arithmetic and whatever the methods reached
    through [self] do, [recommend] ends with the call of the first matching
    rule of the chain: (1) [num_vectors < 10,000] the FLAT method; (2)
    [num_vectors > 100,000,000] the DISK_ANN method; then, with the HNSW
    memory probe as the estimator returns it, (3) latency below 30 and the
    probe below the budget times 0.8, the HNSW method; (4) more than 5,000
    queries per second and a GPU, the GPU_IVF_FLAT method; (5) budget below
    the probe times 0.5, the IVF_PQ method; (6) budget below the probe
    times 0.7 the IVF_SQ8 method, else the IVF_FLAT method. A dataset of
    exactly 10,000 or 100,000,000 vectors is left to rules 3 to 6. The
    closed [recommend] is this chain at the methods of the class, and each
    of them builds a recommendation of its family. *)
Theorem recommend_first_matching_rule
    {F E Rec : Type} (float : FloatOps F) (self : Advisor F E Rec)
    (n d : Z) (lat mem : F) (qps : Z) (uc : string) (gpu : bool)
    (log10 : Z -> Q) (depth : nat) (latQ memQ : Q)
    (nested : Z -> Z -> result Recommendation) (alt : Recommendation) :
  let call := recommend_open float self n d lat mem qps uc gpu in
  (n < 10000 -> call = self_recommend_flat self n d) /\
  (100000000 < n -> call = self_recommend_diskann self n d lat) /\
  (10000 <= n <= 100000000 ->
   (forall e, self_estimate_hnsw_memory self n d None = Raises e -> call = Raises e) /\
   (forall probe, self_estimate_hnsw_memory self n d None = Returns probe ->
      let rule3 := flt float lat (flit float 30) = true /\
                   flt float probe (fmul float mem (flit float 0.8)) = true in
      let rule4 := 5000 < qps /\ gpu = true in
      let rule5 := flt float mem (fmul float probe (flit float 0.5)) = true in
      let rule6 := flt float mem (fmul float probe (flit float 0.7)) = true in
      (rule3 -> call = self_recommend_hnsw self n d) /\
      (~ rule3 -> rule4 -> call = self_recommend_gpu_ivf self n d mem) /\
      (~ rule3 -> ~ rule4 -> rule5 -> call = self_recommend_ivf_pq self n d) /\
      (~ rule3 -> ~ rule4 -> ~ rule5 -> rule6 ->
         call = self_recommend_ivf_sq8 self n d) /\
      (~ rule3 -> ~ rule4 -> ~ rule5 -> ~ rule6 ->
         call = self_recommend_ivf_flat self n d))) /\
  to_outcome (recommend log10 depth n d latQ memQ qps uc gpu)
  = recommend_open Q_floats (index_advisor log10 depth) n d latQ memQ qps uc gpu /\
  _recommend_hnsw log10 (S depth) n d
  = _recommend_hnsw_open log10 (_recommend_ivf_flat log10 depth) n d /\
  _recommend_ivf_flat log10 (S depth) n d
  = _recommend_ivf_flat_open (_recommend_hnsw log10 depth) n d /\
  index_type (_recommend_flat n d) = FLAT /\
  index_type (_recommend_diskann n d latQ) = DISK_ANN /\
  (10000 <= n <= 100000000 -> ordinary_size d ->
   returns_family GPU_IVF_FLAT (_recommend_gpu_ivf n d memQ) /\
   returns_family IVF_PQ (_recommend_ivf_pq n d) /\
   returns_family IVF_SQ8 (_recommend_ivf_sq8 n d) /\
   (nested n d = Ok alt ->
    returns_family HNSW (_recommend_hnsw_open log10 nested n d) /\
    returns_family IVF_FLAT (_recommend_ivf_flat_open nested n d))).
Proof.
  intros call. subst call. unfold recommend_open.
  split; [|split; [|split]].
  - intros H. destruct (Z.ltb_spec n 10000); [reflexivity | lia].
  - intros H. destruct (Z.ltb_spec n 10000); [lia|].
    destruct (Z.ltb_spec 100000000 n); [reflexivity | lia].
  - intros H. destruct (Z.ltb_spec n 10000); [lia|].
    destruct (Z.ltb_spec 100000000 n); [lia|].
    destruct (self_estimate_hnsw_memory self n d None) as [p|e0].
    + split; [intros e He; discriminate He|].
      intros probe [= <-]. cbv zeta.
      destruct (flt float lat (flit float 30)),
               (flt float p (fmul float mem (flit float 0.8)));
        cbn [andb];
        destruct (gpu_rule_spec qps gpu) as [H4|H4];
        destruct (flt float mem (fmul float p (flit float 0.5)));
        destruct (flt float mem (fmul float p (flit float 0.7)));
        repeat split; intros;
        first [ reflexivity | contradiction
              | exfalso; intuition (discriminate || congruence) ].
    + split; [intros e [= <-]; reflexivity | intros probe He; discriminate He].
  - split; [apply recommend_open_index_advisor|].
    split; [apply recommend_hnsw_open_closed|].
    split; [apply recommend_ivf_flat_open_closed|].
    apply method_families.
Qed.

(** ** The range of the chain in exact arithmetic *)

Section Termination.

Variable log10 : Z -> Q.
Variables (depth : nat) (n d : Z) (lat mem : Q) (qps : Z) (uc : string) (gpu : bool).

Local Abbreviation family := (select_family (fun _ => 16) n d lat mem qps gpu).
Local Abbreviation call := (recommend log10 depth n d lat mem qps uc gpu).

(** The chain never selects [GPU_IVF_PQ], and past rule 1 the dataset has
    at least 10,000 vectors. *)
Lemma select_family_range :
  implemented family /\ (family <> FLAT -> 10000 <= n).
Proof.
  unfold select_family, implemented.
  destruct (Z.ltb_spec n 10000); [split; [discriminate | congruence]|].
  split; [|intros _; assumption].
  repeat match goal with |- context [if ?b then _ else _] => destruct b end;
    discriminate.
Qed.

End Termination.

(** C1 (the code departs from the claim). On the valid requirement of
    scenario B, which rule 3 routes to HNSW with the probe, 1.45 GB, far
    below 0.8 of the budget, 51.2 GB, [recommend] returns no
    recommendation: it raises [RecursionError], whatever depth of nested
    calls the interpreter allows. *)
Theorem recommend_hnsw_route_overflows (log10 : Z -> Q) (depth : nat) :
  valid_requirement 500000 768 20 64 /\
  select_family (fun _ => 16) 500000 768 20 64 100 false = HNSW /\
  recommend log10 depth 500000 768 20 64 100 "general" false = Raise RecursionError /\
  _recommend_hnsw log10 depth 500000 768 = Raise RecursionError /\
  _recommend_ivf_flat log10 depth 500000 768 = Raise RecursionError.
Proof.
  assert (select_family (fun _ => 16) 500000 768 20 64 100 false = HNSW) as Hsel
    by (vm_compute; reflexivity).
  destruct (nested_assemblers_overflow log10 depth 500000 768 ltac:(lia)) as [Hh Hi].
  split; [unfold valid_requirement; repeat split; reflexivity|].
  split; [exact Hsel|]. split; [|split; assumption].
  pose proof (recommend_dispatch log10 depth 500000 768 20 64 100 "general" false) as Hd.
  rewrite Hsel in Hd. cbn [assembler] in Hd. congruence.
Qed.

(** ** Alternatives *)

(** What holds of the recommendations that [recommend] does return: at most
    two alternatives, none of the primary family, none with alternatives
    of its own; and the primary is neither HNSW nor IVF_FLAT. *)
Lemma returned_alternatives_shape
    (log10 : Z -> Q) (depth : nat) (n d : Z) (lat mem : Q)
    (qps : Z) (uc : string) (gpu : bool) (r : Recommendation) :
  recommend log10 depth n d lat mem qps uc gpu = Ok r ->
  index_type r <> HNSW /\ index_type r <> IVF_FLAT /\
  (length (alternatives r) <= 2)%nat /\
  Forall (fun a => index_type a <> index_type r /\ alternatives a = [])
         (alternatives r) /\
  (index_type r = IVF_PQ -> map index_type (alternatives r) = [IVF_SQ8; DISK_ANN]) /\
  (index_type r <> IVF_PQ -> alternatives r = []).
Proof.
  intros Hr.
  pose proof (recommend_family log10 depth n d lat mem qps uc gpu r Hr) as Hfam.
  pose proof (recommend_dispatch log10 depth n d lat mem qps uc gpu) as Hd.
  rewrite Hr, <- Hfam in Hd.
  destruct (nested_assemblers_raise log10 depth n d) as [[e1 He1] [e2 He2]].
  destruct (index_type r) eqn:Hf; cbn [assembler] in Hd; try congruence;
    injection Hd as Hd.
  - rewrite <- Hd. cbn. repeat split; (discriminate || lia || reflexivity || constructor).
  - apply ivf_sq8_inv in Hd as (_ & _ & -> & _).
    cbn. repeat split; (discriminate || lia || reflexivity || constructor).
  - apply ivf_pq_inv in Hd as (_ & _ & a & Ha & ->).
    apply ivf_sq8_inv in Ha as (_ & Hfa & Haa & _).
    cbn. rewrite Hfa. repeat split; try (discriminate || lia || congruence).
    repeat constructor; cbn; (congruence || discriminate || reflexivity).
  - rewrite <- Hd. cbn. repeat split; (discriminate || lia || reflexivity || constructor).
  - apply gpu_ivf_inv in Hd as (_ & _ & ->).
    cbn. repeat split; (discriminate || lia || reflexivity || constructor).
Qed.

(** C5 (the code departs from the claim). Neither an HNSW nor an IVF_FLAT
    recommendation, with the two alternatives the claim lists for it, is
    ever returned: each of the two methods assembles the other as its first
    alternative, alternatives included, so the nesting has no end. On the
    valid requirement below, which rule 6 routes to IVF_FLAT, [recommend]
    raises [RecursionError] at every depth; and so does every call of the
    two methods on a positive dataset size. *)
Theorem recommend_ivf_flat_route_overflows (log10 : Z -> Q) (depth : nat) :
  valid_requirement 1000000 128 50 100 /\
  select_family (fun _ => 16) 1000000 128 50 100 0 false = IVF_FLAT /\
  recommend log10 depth 1000000 128 50 100 0 "general" false = Raise RecursionError /\
  _recommend_ivf_flat log10 depth 1000000 128 = Raise RecursionError /\
  _recommend_hnsw log10 depth 1000000 128 = Raise RecursionError.
Proof.
  assert (select_family (fun _ => 16) 1000000 128 50 100 0 false = IVF_FLAT) as Hsel
    by (vm_compute; reflexivity).
  destruct (nested_assemblers_overflow log10 depth 1000000 128 ltac:(lia)) as [Hh Hi].
  split; [unfold valid_requirement; repeat split; reflexivity|].
  split; [exact Hsel|]. split; [|split; assumption].
  pose proof (recommend_dispatch log10 depth 1000000 128 50 100 0 "general" false) as Hd.
  rewrite Hsel in Hd. cbn [assembler] in Hd. congruence.
Qed.

(** ** Input validation *)




(** ** The HNSW memory probe *)



(** ** The GPU assembler and the memory budget *)

Lemma gpu_ivf_budget_unused (n d : Z) (mem1 mem2 : Q) :
  _recommend_gpu_ivf n d mem1 = _recommend_gpu_ivf n d mem2.
Proof. reflexivity. Qed.

Lemma recommend_gpu_inv
    (log10 : Z -> Q) (depth : nat) (n d : Z) (lat mem : Q)
    (qps : Z) (uc : string) (gpu : bool) (r : Recommendation) :
  recommend log10 depth n d lat mem qps uc gpu = Ok r ->
  index_type r = GPU_IVF_FLAT ->
  _recommend_gpu_ivf n d mem = Ok r.
Proof.
  intros Hr Hf.
  pose proof (recommend_family log10 depth n d lat mem qps uc gpu r Hr) as Hfam.
  pose proof (recommend_dispatch log10 depth n d lat mem qps uc gpu) as Hd.
  rewrite <- Hfam, Hf in Hd. cbn [assembler] in Hd. congruence.
Qed.

(** C10. Two inputs that differ only in [memory_budget_gb] and are both
    answered with a GPU_IVF_FLAT recommendation are answered with the same
    recommendation: parameters, estimates, reason and confidence. *)
Theorem gpu_recommendation_ignores_budget
    (log10 : Z -> Q) (depth : nat) (n d : Z) (lat mem1 mem2 : Q)
    (qps : Z) (uc : string) (gpu : bool) (r1 r2 : Recommendation) :
  recommend log10 depth n d lat mem1 qps uc gpu = Ok r1 ->
  index_type r1 = GPU_IVF_FLAT ->
  recommend log10 depth n d lat mem2 qps uc gpu = Ok r2 ->
  index_type r2 = GPU_IVF_FLAT ->
  r1 = r2.
Proof.
  intros H1 F1 H2 F2.
  apply recommend_gpu_inv in H1; [|exact F1].
  apply recommend_gpu_inv in H2; [|exact F2].
  rewrite (gpu_ivf_budget_unused n d mem1 mem2) in H1. congruence.
Qed.

Lemma gpu_recommendation_ignores_budget_witness :
  exists r1 r2,
    recommend log10_floor recursion_limit 2000000 768 50 16 8000 "general" true = Ok r1 /\
    recommend log10_floor recursion_limit 2000000 768 50 32 8000 "general" true = Ok r2 /\
    index_type r1 = GPU_IVF_FLAT /\ params r1 !! "nlist" = Some 1414 /\
    r1 = r2.
Proof.
  eexists. eexists.
  split; [vm_compute; reflexivity|]. split; [vm_compute; reflexivity|].
  split; [reflexivity|]. split; [vm_compute; reflexivity|].
  apply (gpu_recommendation_ignores_budget
           log10_floor recursion_limit 2000000 768 50 16 32 8000 "general" true);
    vm_compute; reflexivity.
Defined.

(** ** IVF parameters *)

(** [round_sqrt] is the rounding of the square root to the nearest integer:
    the root lies strictly within one half of it. *)
Lemma round_sqrt_nearest (n : Z) :
  0 < n ->
  (2 * round_sqrt n - 1) ^ 2 < 4 * n < (2 * round_sqrt n + 1) ^ 2.
Proof.
  intros Hn. unfold round_sqrt.
  pose proof (Z.sqrt_spec n ltac:(lia)) as Hs.
  assert (0 < Z.sqrt n) as Hp by (apply Z.sqrt_pos; exact Hn).
  set (s := Z.sqrt n) in *. cbv zeta. unfold Z.succ in Hs.
  destruct (Z.ltb_spec (s * s + s) n); rewrite !Z.pow_2_r; split; nia.
Qed.

(** C6, as the code has it. The two conversions are [int(...)], which
    truncates: the IVF_FLAT assembler builds its recommendation with
    [nlist = clamp(floor(sqrt(num_vectors)), 128, 16384)] and
    [nprobe = max(16, floor(nlist / 10))], and an IVF_SQ8 recommendation has
    [nprobe = max(16, floor(nlist / 10))] of its own [nlist]. *)
Theorem ivf_nlist_nprobe_truncate (n d : Z) :
  0 <= n ->
  (exists build, _recommend_ivf_flat_body n d = Ok build /\
     forall alts,
       index_type (build alts) = IVF_FLAT /\
       params (build alts) !! "nlist" = Some (clamp (Z.sqrt n) 128 16384) /\
       params (build alts) !! "nprobe"
       = Some (Z.max 16 (clamp (Z.sqrt n) 128 16384 / 10))) /\
  (exists r nlist, _recommend_ivf_sq8 n d = Ok r /\
     index_type r = IVF_SQ8 /\
     params r !! "nlist" = Some nlist /\
     params r !! "nprobe" = Some (Z.max 16 (nlist / 10))).
Proof.
  intros Hn. split.
  - unfold _recommend_ivf_flat_body. rewrite int_sqrt_nonneg by assumption. unbind.
    eexists. split; [reflexivity|]. intros alts. cbn [index_type params].
    rewrite int_of_tenth by lia.
    repeat split; reflexivity.
  - destruct (_recommend_ivf_sq8 n d) as [r|e] eqn:Hr.
    + exists r, (Z.sqrt n). apply ivf_sq8_inv in Hr. repeat split; tauto.
    + unfold _recommend_ivf_sq8 in Hr. rewrite int_sqrt_nonneg in Hr by assumption.
      discriminate.
Qed.

Lemma ivf_nlist_nprobe_truncate_witness :
  (exists build, _recommend_ivf_flat_body 17100 128 = Ok build /\
     forall alts,
       index_type (build alts) = IVF_FLAT /\
       params (build alts) !! "nlist" = Some (clamp (Z.sqrt 17100) 128 16384) /\
       params (build alts) !! "nprobe"
       = Some (Z.max 16 (clamp (Z.sqrt 17100) 128 16384 / 10))) /\
  (exists r nlist, _recommend_ivf_sq8 17100 128 = Ok r /\
     index_type r = IVF_SQ8 /\
     params r !! "nlist" = Some nlist /\
     params r !! "nprobe" = Some (Z.max 16 (nlist / 10))).
Proof.
  apply (ivf_nlist_nprobe_truncate 17100 128). lia.
Defined.

(** C6, as stated, fails. Rule 6 answers the two requirements below with
    IVF_SQ8 recommendations: on 27,556 vectors [nlist] is 166 and [nprobe]
    is 16, where [max(16, round(0.1 * 166))] is 17; on 17,100 vectors
    [nlist] is 130, where [clamp(round(sqrt(17100)), 128, 16384)] is 131. *)
Lemma ivf_params_not_rounded :
  (exists r,
     recommend log10_floor recursion_limit 27556 128 50 0.009 100 "general" false = Ok r /\
     index_type r = IVF_SQ8 /\
     params r !! "nlist" = Some 166 /\ nlist_spec 27556 = 166 /\
     params r !! "nprobe" = Some 16 /\ nprobe_spec 166 = 17) /\
  (exists r,
     recommend log10_floor recursion_limit 17100 128 50 0.005 100 "general" false = Ok r /\
     index_type r = IVF_SQ8 /\
     params r !! "nlist" = Some 130 /\ nlist_spec 17100 = 131).
Proof.
  split; eexists; (split; [vm_compute; reflexivity|]);
    repeat split; vm_compute; reflexivity.
Qed.

(** The IVF_SQ8 assembler, unlike its two siblings, does not clamp [nlist]:
    on 10,000 vectors it is 100. *)
Lemma ivf_sq8_nlist_unclamped :
  exists r,
    recommend log10_floor recursion_limit 10000 128 50 0.003 100 "general" false = Ok r /\
    index_type r = IVF_SQ8 /\
    params r !! "nlist" = Some 100 /\ clamp 100 128 16384 = 128.
Proof.
  eexists. split; [vm_compute; reflexivity|]. repeat split; vm_compute; reflexivity.
Qed.

(** ** Estimates *)

(** The IVF_FLAT assembler computes the latency from the dataset size. *)
Lemma ivf_flat_latency (n d : Z) :
  0 <= n ->
  exists build, _recommend_ivf_flat_body n d = Ok build /\
    forall alts, query_latency_p95 (build alts) = (10 + truediv n 1000000 * 5)%Q.
Proof.
  intros Hn. unfold _recommend_ivf_flat_body. rewrite int_sqrt_nonneg by assumption.
  unbind. eexists. split; reflexivity.
Qed.



(** The IVF_PQ assembler's build time is 1.25 times the estimator's. *)
Lemma ivf_pq_build_time (n d : Z) (r : Recommendation) :
  _recommend_ivf_pq n d = Ok r ->
  (build_time_min r == 1.25 * _estimate_build_time n d "IVF_PQ" (params r))%Q.
Proof.
  unfold _recommend_ivf_pq.
  destruct (int_sqrt n) as [s|e]; unbind; [|discriminate].
  destruct (_recommend_ivf_sq8 n d) as [a|e]; [|discriminate].
  intros [= <-]. cbn [build_time_min params].
  unfold _estimate_build_time, truediv.
  rewrite bool_decide_eq_false_2 by discriminate.
  rewrite bool_decide_eq_false_2 by discriminate.
  rewrite bool_decide_eq_true_2 by reflexivity.
  field.
Qed.

(** C8 (the code departs from the claim). On the requirement below, which
    rule 5 routes to IVF_PQ, the recommendation's build time is 30 minutes,
    from [num_vectors / 80,000 * 3]; the claim's [base * 3] with
    [base = num_vectors / 100,000], which is also what
    [_estimate_build_time] computes for IVF_PQ, is 24 minutes. *)
Theorem ivf_pq_build_time_not_base_times_three (log10 : Z -> Q) (depth : nat) :
  exists r,
    recommend log10 depth 800000 128 50 0.1 100 "general" false = Ok r /\
    index_type r = IVF_PQ /\
    (build_time_min r == 30)%Q /\
    (truediv 800000 100000 * 3 == 24)%Q /\
    (_estimate_build_time 800000 128 "IVF_PQ" (params r) == 24)%Q.
Proof.
  eexists. split; [vm_compute; reflexivity|].
  repeat split; vm_compute; reflexivity.
Qed.

(** ** The PQ sub-vector count *)

Lemma calculate_pq_m_spec (d : Z) :
  let m := _calculate_pq_m d in
  In m [32; 16; 8; 4] /\
  (forall k, In k [32; 16; 8; 4] -> (k | d) -> (m | d) /\ k <= m) /\
  ((forall k, In k [32; 16; 8; 4] -> ~ (k | d)) -> m = 8).
Proof.
  unfold _calculate_pq_m, first_divisor.
  assert (Hdiv : forall k, 0 < k -> d mod k = 0 <-> (k | d))
    by (intros k Hk; apply Z.mod_divide; lia).
  destruct (Z.eqb_spec (d mod 32) 0) as [H32|H32];
    [|destruct (Z.eqb_spec (d mod 16) 0) as [H16|H16];
      [|destruct (Z.eqb_spec (d mod 8) 0) as [H8|H8];
        [|destruct (Z.eqb_spec (d mod 4) 0) as [H4|H4]]]];
    cbv zeta; (split; [cbn; tauto|]); split.
  all: try (intros k Hk Hkd; cbn in Hk;
            destruct Hk as [<-|[<-|[<-|[<-|[]]]]];
            apply Hdiv in Hkd; try lia;
            (split; [apply Hdiv; lia | lia])).
  all: try reflexivity.
  all: intros Hnone; exfalso.
  - apply (Hnone 32); [cbn; tauto | apply Hdiv; lia].
  - apply (Hnone 16); [cbn; tauto | apply Hdiv; lia].
  - apply (Hnone 4); [cbn; tauto | apply Hdiv; lia].
Qed.

(** C9. An IVF_PQ recommendation has for [m] the largest of 32, 16, 8 and 4
    that divides [dimensions], and 8 when none of them does. *)
Theorem ivf_pq_subvector_count (n d : Z) :
  0 <= n ->
  exists r, _recommend_ivf_pq n d = Ok r /\
    index_type r = IVF_PQ /\
    params r !! "m" = Some (_calculate_pq_m d) /\
    In (_calculate_pq_m d) [32; 16; 8; 4] /\
    (forall k, In k [32; 16; 8; 4] -> (k | d) ->
       (_calculate_pq_m d | d) /\ k <= _calculate_pq_m d) /\
    ((forall k, In k [32; 16; 8; 4] -> ~ (k | d)) -> _calculate_pq_m d = 8).
Proof.
  intros Hn.
  unfold _recommend_ivf_pq, _recommend_ivf_sq8. rewrite int_sqrt_nonneg by assumption.
  unbind. eexists. split; [reflexivity|]. split; [reflexivity|].
  split; [reflexivity|]. apply calculate_pq_m_spec.
Qed.

Lemma ivf_pq_subvector_count_witness :
  _calculate_pq_m 101 = 8 /\ _calculate_pq_m 100 = 4 /\
  exists r, _recommend_ivf_pq 1000000 101 = Ok r /\
    index_type r = IVF_PQ /\
    params r !! "m" = Some (_calculate_pq_m 101) /\
    In (_calculate_pq_m 101) [32; 16; 8; 4] /\
    (forall k, In k [32; 16; 8; 4] -> (k | 101) ->
       (_calculate_pq_m 101 | 101) /\ k <= _calculate_pq_m 101) /\
    ((forall k, In k [32; 16; 8; 4] -> ~ (k | 101)) -> _calculate_pq_m 101 = 8).
Proof.
  split; [reflexivity|]. split; [reflexivity|].
  apply (ivf_pq_subvector_count 1000000 101). lia.
Defined.

(** ** The scenarios of the design document *)

(** Scenario A: 5,000 vectors of dimension 128 get FLAT, no parameters and
    recall 1. *)
Example scenario_A (log10 : Z -> Q) (depth : nat) :
  exists r, recommend log10 depth 5000 128 20 16 100 "general" false = Ok r /\
    index_type r = FLAT /\ params r = ∅ /\ (recall_at_10 r == 1)%Q.
Proof.
  eexists. split; [vm_compute; reflexivity|]. repeat split; reflexivity.
Qed.

(** Scenario B is routed to HNSW, whose body computes [M = 16],
    [efConstruction = 240] and [ef = 64]. *)
Example scenario_B :
  select_family (fun _ => 16) 500000 768 20 64 100 false = HNSW /\
  exists build, _recommend_hnsw_body log10_floor 500000 768 = Ok build /\
    forall alts,
      params (build alts) !! "M" = Some 16 /\
      params (build alts) !! "efConstruction" = Some 240 /\
      params (build alts) !! "ef" = Some 64.
Proof.
  split; [vm_compute; reflexivity|].
  eexists. split; [vm_compute; reflexivity|].
  intros alts. repeat split; vm_compute; reflexivity.
Qed.

(** Scenario C: 200,000,000 vectors get DISK_ANN. *)
Example scenario_C (log10 : Z -> Q) (depth : nat) (d : Z) (lat mem : Q)
    (qps : Z) (uc : string) (gpu : bool) :
  exists r, recommend log10 depth 200000000 d lat mem qps uc gpu = Ok r /\
    index_type r = DISK_ANN.
Proof.
  eexists. split; reflexivity.
Qed.

(** Scenario D: 2,000,000 vectors, 8,000 queries per second and a GPU get
    GPU_IVF_FLAT with [nlist = 1414] and [nprobe = 64]. *)
Example scenario_D (log10 : Z -> Q) (depth : nat) (mem : Q) :
  exists r, recommend log10 depth 2000000 768 50 mem 8000 "general" true = Ok r /\
    index_type r = GPU_IVF_FLAT /\
    params r !! "nlist" = Some 1414 /\ params r !! "nprobe" = Some 64.
Proof.
  eexists. split; [reflexivity|]. repeat split; vm_compute; reflexivity.
Qed.

(** * Further properties of the advisor *)

(** ** Which inputs reach which family *)

Lemma select_family_inv (n d : Z) (lat mem : Q) (qps : Z) (gpu : bool) :
  let family := select_family (fun _ => 16) n d lat mem qps gpu in
  (family = FLAT <-> n < 10000) /\
  (family = DISK_ANN <-> 100000000 < n) /\
  (family = HNSW -> (lat < 30)%Q) /\
  (family = GPU_IVF_FLAT -> 5000 < qps /\ gpu = true) /\
  (family <> FLAT -> family <> DISK_ANN -> 10000 <= n <= 100000000).
Proof.
  unfold select_family.
  destruct (Z.ltb_spec n 10000) as [H1|H1].
  { repeat split; intros; congruence || lia. }
  destruct (Z.ltb_spec 100000000 n) as [H2|H2].
  { repeat split; intros; congruence || lia. }
  destruct (andb_Qltb_spec lat 30
              (_estimate_hnsw_memory n d (Some 16)) (0.8 * mem)) as [H3|H3].
  { repeat split; intros; try (congruence || lia); tauto. }
  destruct (gpu_rule_spec qps gpu) as [H4|H4].
  { repeat split; intros; try (congruence || lia); tauto. }
  repeat match goal with |- context [if ?b then _ else _] => destruct b end;
    repeat split; intros; congruence || lia.
Qed.

(** What a returned recommendation tells about the input: FLAT exactly
    below 10,000 vectors, DISK_ANN exactly above 100,000,000, a GPU index
    only with a GPU and more than 5,000 queries per second, and never HNSW,
    IVF_FLAT or GPU_IVF_PQ. *)
Theorem returned_family_conditions
    (log10 : Z -> Q) (depth : nat) (n d : Z) (lat mem : Q)
    (qps : Z) (uc : string) (gpu : bool) (r : Recommendation) :
  recommend log10 depth n d lat mem qps uc gpu = Ok r ->
  (index_type r = FLAT <-> n < 10000) /\
  (index_type r = DISK_ANN <-> 100000000 < n) /\
  (index_type r = GPU_IVF_FLAT -> 5000 < qps /\ gpu = true) /\
  index_type r <> HNSW /\ index_type r <> IVF_FLAT /\ index_type r <> GPU_IVF_PQ.
Proof.
  intros Hr.
  pose proof (recommend_family log10 depth n d lat mem qps uc gpu r Hr) as Hfam.
  destruct (select_family_inv n d lat mem qps gpu) as (Hflat & Hdisk & _ & Hgpu & _).
  destruct (select_family_range n d lat mem qps gpu) as [Himpl _].
  destruct (returned_alternatives_shape log10 depth n d lat mem qps uc gpu r Hr)
    as (Hh & Hi & _).
  cbv zeta in Hflat, Hdisk, Hgpu. unfold implemented in Himpl.
  rewrite <- Hfam in Hflat, Hdisk, Hgpu, Himpl.
  split; [exact Hflat|]. split; [exact Hdisk|]. split; [exact Hgpu|].
  split; [exact Hh|]. split; [exact Hi | exact Himpl].
Qed.

Lemma returned_family_conditions_witness :
  exists r,
    recommend log10_floor recursion_limit 2000000 768 50 16 8000 "general" true = Ok r /\
    (index_type r = GPU_IVF_FLAT -> 5000 < 8000 /\ true = true) /\
    index_type r <> HNSW.
Proof.
  eexists. split; [vm_compute; reflexivity|].
  pose proof (returned_family_conditions
                log10_floor recursion_limit 2000000 768 50 16 8000 "general" true _
                ltac:(vm_compute; reflexivity)) as H.
  split; [apply H | apply H].
Defined.

(** ** Errors of the assemblers *)

(** On integers of ordinary size the two nested methods fail on every
    argument. With a positive dataset size the failure is the stack
    overflow, at every depth. Without one it is the domain error of
    [math.log10] or [math.sqrt], raised as soon as the depth lets the call
    reach it. *)
Theorem nested_assemblers_errors (log10 : Z -> Q) (depth : nat) (n d : Z) :
  ordinary_size n -> ordinary_size d ->
  (0 < n ->
     _recommend_hnsw log10 depth n d = Raise RecursionError /\
     _recommend_ivf_flat log10 depth n d = Raise RecursionError) /\
  (n <= 0 -> _recommend_hnsw log10 (S depth) n d = Raise ValueError) /\
  (n < 0 -> _recommend_ivf_flat log10 (S depth) n d = Raise ValueError) /\
  _recommend_ivf_flat log10 1 0 d = Raise RecursionError /\
  _recommend_ivf_flat log10 (S (S depth)) 0 d = Raise ValueError.
Proof.
  intros _ _.
  assert (Hh : forall k m, m <= 0 -> _recommend_hnsw log10 (S k) m d = Raise ValueError).
  { intros k m Hm. cbn [_recommend_hnsw].
    unfold _recommend_hnsw_body, _estimate_latency, math_log10.
    rewrite bool_decide_eq_true_2 by reflexivity.
    destruct (Z.leb_spec m 0); [reflexivity | lia]. }
  split; [apply nested_assemblers_overflow|].
  split; [apply Hh|]. split; [|split].
  - intros Hn. cbn [_recommend_ivf_flat]. unfold _recommend_ivf_flat_body, int_sqrt.
    destruct (Z.ltb_spec n 0); [reflexivity | lia].
  - reflexivity.
  - cbn [_recommend_ivf_flat]. unfold _recommend_ivf_flat_body. cbn [int_sqrt Z.ltb Z.compare].
    unbind. rewrite Hh by lia. reflexivity.
Qed.

Lemma nested_assemblers_errors_witness :
  (0 < 20000 ->
     _recommend_hnsw log10_floor 3 20000 128 = Raise RecursionError /\
     _recommend_ivf_flat log10_floor 3 20000 128 = Raise RecursionError) /\
  (20000 <= 0 -> _recommend_hnsw log10_floor 4 20000 128 = Raise ValueError) /\
  (20000 < 0 -> _recommend_ivf_flat log10_floor 4 20000 128 = Raise ValueError) /\
  _recommend_ivf_flat log10_floor 1 0 128 = Raise RecursionError /\
  _recommend_ivf_flat log10_floor 5 0 128 = Raise ValueError.
Proof.
  apply (nested_assemblers_errors log10_floor 3 20000 128);
    unfold ordinary_size; simpl; lia.
Defined.

(** On integers of ordinary size the three IVF methods without nesting
    return a recommendation of their family exactly on a dataset size that
    has a square root; a negative one raises [ValueError]. *)
Theorem ivf_assemblers_domain (n d : Z) (mem : Q) :
  ordinary_size n -> ordinary_size d ->
  (0 <= n ->
     returns_family IVF_SQ8 (_recommend_ivf_sq8 n d) /\
     returns_family GPU_IVF_FLAT (_recommend_gpu_ivf n d mem) /\
     returns_family IVF_PQ (_recommend_ivf_pq n d)) /\
  (n < 0 ->
     _recommend_ivf_sq8 n d = Raise ValueError /\
     _recommend_gpu_ivf n d mem = Raise ValueError /\
     _recommend_ivf_pq n d = Raise ValueError).
Proof.
  intros _ _. split; intros Hn.
  - unfold returns_family, _recommend_ivf_pq, _recommend_gpu_ivf, _recommend_ivf_sq8.
    rewrite int_sqrt_nonneg by assumption. unbind.
    repeat split; eexists; split; reflexivity.
  - unfold _recommend_ivf_pq, _recommend_gpu_ivf, _recommend_ivf_sq8, int_sqrt.
    destruct (Z.ltb_spec n 0); [|lia]. repeat split; reflexivity.
Qed.

Lemma ivf_assemblers_domain_witness :
  (0 <= 20000 ->
     returns_family IVF_SQ8 (_recommend_ivf_sq8 20000 128) /\
     returns_family GPU_IVF_FLAT (_recommend_gpu_ivf 20000 128 16) /\
     returns_family IVF_PQ (_recommend_ivf_pq 20000 128)) /\
  (20000 < 0 ->
     _recommend_ivf_sq8 20000 128 = Raise ValueError /\
     _recommend_gpu_ivf 20000 128 16 = Raise ValueError /\
     _recommend_ivf_pq 20000 128 = Raise ValueError).
Proof.
  apply (ivf_assemblers_domain 20000 128 16); unfold ordinary_size; simpl; lia.
Defined.

(** ** Facts on the numeric primitives *)

Lemma truediv_pos (a b : Z) : 0 < a -> 0 < b -> (0 < truediv a b)%Q.
Proof.
  intros Ha Hb. unfold truediv.
  apply Qlt_shift_div_l; [rewrite <- (Zlt_Qlt 0); exact Hb|].
  rewrite Qmult_0_l. rewrite <- (Zlt_Qlt 0). exact Ha.
Qed.

Lemma GiB_pos : 0 < GiB.
Proof. reflexivity. Qed.

(** On a non-negative float [int(x)] is the floor. *)
Lemma int_of_float_floor (x : Q) : (0 <= x)%Q -> int_of_float x = Qfloor x.
Proof.
  destruct x as [p q]. unfold Qle, int_of_float, Qfloor. cbn.
  intros H. apply Z.quot_div_nonneg; lia.
Qed.

(** [int(nlist * 0.15)]. *)
Lemma int_of_fifteen_hundredths (nlist : Z) :
  0 <= nlist -> int_of_float (inject_Z nlist * 0.15)%Q = nlist * 15 / 100.
Proof.
  intros H. unfold int_of_float. cbn [Qmult Qnum Qden inject_Z].
  change (Z.pos (1 * 100)) with 100.
  apply Z.quot_div_nonneg; lia.
Qed.

(** The HNSW memory estimate grows with the graph degree. *)
Lemma estimate_hnsw_memory_degree (n d M1 M2 : Z) :
  0 < n -> M1 < M2 ->
  (_estimate_hnsw_memory n d (Some M1) < _estimate_hnsw_memory n d (Some M2))%Q.
Proof.
  intros Hn HM. unfold _estimate_hnsw_memory. cbn [default]. unfold Qdiv.
  assert (0 < / inject_Z GiB)%Q as HG by (apply Qinv_lt_0_compat; reflexivity).
  assert (0 < inject_Z n)%Q as HN by (rewrite <- (Zlt_Qlt 0); exact Hn).
  assert (0 < 1.2)%Q as H12 by reflexivity.
  apply (proj2 (Qmult_lt_r _ _ _ HG)).
  apply (proj2 (Qmult_lt_l _ _ _ HN)).
  apply (proj2 (Qplus_lt_r _ _ _)).
  apply (proj2 (Qmult_lt_r _ _ _ H12)).
  rewrite <- Zlt_Qlt. unfold id. lia.
Qed.

(** ** The HNSW estimate against the probe that admits it *)

(** Rule 3 admits HNSW on the memory probe at degree 16, and the HNSW
    method then estimates its memory at the degree of the bucket: below
    the probe under 100,000 vectors, equal to it under 1,000,000, and above
    it from 1,000,000 vectors on. *)
Theorem hnsw_estimate_against_probe (log10 : Z -> Q) (n d : Z) :
  0 < n ->
  exists build, _recommend_hnsw_body log10 n d = Ok build /\
    forall alts,
      let probe := _estimate_hnsw_memory n d None in
      let estimate := memory_gb (build alts) in
      estimate = _estimate_hnsw_memory n d (Some (_calculate_hnsw_m n)) /\
      (n < 100000 -> (estimate < probe)%Q) /\
      (100000 <= n < 1000000 -> estimate = probe) /\
      (1000000 <= n -> (probe < estimate)%Q).
Proof.
  intros Hn. unfold _recommend_hnsw_body, _estimate_latency, math_log10.
  rewrite bool_decide_eq_true_2 by reflexivity.
  destruct (Z.leb_spec n 0); [lia|]. unbind.
  eexists. split; [reflexivity|]. intros alts. cbn [memory_gb].
  split; [reflexivity|].
  change (_estimate_hnsw_memory n d None) with (_estimate_hnsw_memory n d (Some 16)).
  unfold _calculate_hnsw_m.
  destruct (Z.ltb_spec n 100000); [|destruct (Z.ltb_spec n 1000000);
    [|destruct (Z.ltb_spec n 10000000)]];
    repeat split; intros; try lia; try reflexivity;
    apply estimate_hnsw_memory_degree; lia.
Qed.

Lemma hnsw_estimate_against_probe_witness :
  exists build, _recommend_hnsw_body log10_floor 2000000 768 = Ok build /\
    forall alts,
      let probe := _estimate_hnsw_memory 2000000 768 None in
      let estimate := memory_gb (build alts) in
      estimate = _estimate_hnsw_memory 2000000 768 (Some (_calculate_hnsw_m 2000000)) /\
      (2000000 < 100000 -> (estimate < probe)%Q) /\
      (100000 <= 2000000 < 1000000 -> estimate = probe) /\
      (1000000 <= 2000000 -> (probe < estimate)%Q).
Proof.
  apply (hnsw_estimate_against_probe log10_floor 2000000 768). lia.
Defined.

(** ** The graph degree and the HNSW parameters *)

(** The graph degree never decreases with the dataset size and is one of
    8, 16, 24 and 32; the HNSW method sets [efConstruction] to fifteen
    times and [ef] to four times the degree of the dataset's bucket. *)
Theorem hnsw_parameters (log10 : Z -> Q) (n n' d : Z) :
  0 < n -> n <= n' ->
  _calculate_hnsw_m n <= _calculate_hnsw_m n' /\
  In (_calculate_hnsw_m n) [8; 16; 24; 32] /\
  exists build, _recommend_hnsw_body log10 n d = Ok build /\
    forall alts,
      index_type (build alts) = HNSW /\
      params (build alts) !! "M" = Some (_calculate_hnsw_m n) /\
      params (build alts) !! "efConstruction" = Some (15 * _calculate_hnsw_m n) /\
      params (build alts) !! "ef" = Some (4 * _calculate_hnsw_m n) /\
      dom (params (build alts)) = {["M"; "efConstruction"; "ef"]}.
Proof.
  intros Hn Hle. split; [|split].
  - unfold _calculate_hnsw_m.
    repeat match goal with |- context [?a <? ?b] => destruct (Z.ltb_spec a b) end; lia.
  - unfold _calculate_hnsw_m.
    repeat match goal with |- context [?a <? ?b] => destruct (Z.ltb_spec a b) end;
      cbn; tauto.
  - unfold _recommend_hnsw_body, _estimate_latency, math_log10.
    rewrite bool_decide_eq_true_2 by reflexivity.
    destruct (Z.leb_spec n 0); [lia|]. unbind.
    eexists. split; [reflexivity|]. intros alts. cbn [index_type params].
    rewrite (Z.mul_comm 15), (Z.mul_comm 4).
    repeat split; reflexivity.
Qed.

Lemma hnsw_parameters_witness :
  _calculate_hnsw_m 500000 <= _calculate_hnsw_m 20000000 /\
  In (_calculate_hnsw_m 500000) [8; 16; 24; 32] /\
  exists build, _recommend_hnsw_body log10_floor 500000 768 = Ok build /\
    forall alts,
      index_type (build alts) = HNSW /\
      params (build alts) !! "M" = Some (_calculate_hnsw_m 500000) /\
      params (build alts) !! "efConstruction" = Some (15 * _calculate_hnsw_m 500000) /\
      params (build alts) !! "ef" = Some (4 * _calculate_hnsw_m 500000) /\
      dom (params (build alts)) = {["M"; "efConstruction"; "ef"]}.
Proof.
  apply (hnsw_parameters log10_floor 500000 20000000 768); lia.
Defined.

(** ** The recommendations that are returned *)

Lemma ivf_pq_params (n d : Z) (r : Recommendation) :
  _recommend_ivf_pq n d = Ok r ->
  let nlist := clamp (Z.sqrt n) 128 16384 in
  params r !! "nlist" = Some nlist /\
  params r !! "nprobe" = Some (Z.max 32 (nlist * 15 / 100)) /\
  params r !! "m" = Some (_calculate_pq_m d) /\
  params r !! "nbits" = Some 8 /\
  (memory_gb r == truediv (n * d * 4) GiB * 0.25)%Q.
Proof.
  unfold _recommend_ivf_pq. destruct (int_sqrt n) as [s|e] eqn:Hs; unbind; [|discriminate].
  apply int_sqrt_inv in Hs as [Hn ->].
  destruct (_recommend_ivf_sq8 n d) as [a|e]; [|discriminate].
  intros [= <-]. cbn [params memory_gb]. unfold clamp.
  rewrite int_of_fifteen_hundredths by lia.
  repeat split; reflexivity.
Qed.

Lemma gpu_ivf_params (n d : Z) (mem : Q) (r : Recommendation) :
  _recommend_gpu_ivf n d mem = Ok r ->
  params r !! "nlist" = Some (Z.sqrt n) /\ params r !! "nprobe" = Some 64.
Proof.
  unfold _recommend_gpu_ivf. destruct (int_sqrt n) as [s|e] eqn:Hs; unbind; [|discriminate].
  apply int_sqrt_inv in Hs as [Hn ->]. intros [= <-]. split; reflexivity.
Qed.

Lemma ivf_pq_returns (n d : Z) : 0 <= n -> exists r, _recommend_ivf_pq n d = Ok r.
Proof.
  intros Hn. unfold _recommend_ivf_pq, _recommend_ivf_sq8.
  rewrite int_sqrt_nonneg by assumption. unbind. eauto.
Qed.

(** The five shapes of a returned recommendation. *)
Lemma recommend_returned_cases
    (log10 : Z -> Q) (depth : nat) (n d : Z) (lat mem : Q)
    (qps : Z) (uc : string) (gpu : bool) (r : Recommendation) :
  recommend log10 depth n d lat mem qps uc gpu = Ok r ->
  (n < 10000 /\ r = _recommend_flat n d) \/
  (100000000 < n /\ r = _recommend_diskann n d lat) \/
  (10000 <= n <= 100000000 /\
   (_recommend_ivf_sq8 n d = Ok r \/ _recommend_ivf_pq n d = Ok r \/
    _recommend_gpu_ivf n d mem = Ok r)).
Proof.
  intros Hr.
  pose proof (recommend_dispatch log10 depth n d lat mem qps uc gpu) as Hd.
  destruct (select_family_inv n d lat mem qps gpu) as (Hflat & Hdisk & _ & _ & Hmid).
  destruct (nested_assemblers_raise log10 depth n d) as [[e1 He1] [e2 He2]].
  cbv zeta in Hflat, Hdisk, Hmid. rewrite Hr in Hd.
  destruct (select_family (fun _ => 16) n d lat mem qps gpu) eqn:Hf;
    cbn [assembler] in Hd; try congruence; injection Hd as Hd.
  - left. split; [apply Hflat; reflexivity | congruence].
  - right. right. split; [apply Hmid; discriminate | tauto].
  - right. right. split; [apply Hmid; discriminate | tauto].
  - right. left. split; [apply Hdisk; reflexivity | congruence].
  - right. right. split; [apply Hmid; discriminate | tauto].
Qed.

Lemma sqrt_mid_range (n : Z) :
  10000 <= n <= 100000000 -> 100 <= Z.sqrt n <= 10000.
Proof.
  intros [Hlo Hhi].
  pose proof (Z.sqrt_le_mono 10000 n Hlo) as H1.
  pose proof (Z.sqrt_le_mono n 100000000 Hhi) as H2.
  change (Z.sqrt 10000) with 100 in H1. change (Z.sqrt 100000000) with 10000 in H2.
  lia.
Qed.

Ltac root_bounds :=
  match goal with
  | H : _ <= Z.sqrt ?n <= _ |- _ => revert H; generalize (Z.sqrt n); clear; intros;
      Z.div_mod_to_equations; lia
  end.

(** Every recommendation [recommend] returns, and every alternative it
    carries, that has the two IVF search parameters has between 100 and
    16,384 clusters and probes at least 16 and at most all of them. *)
Theorem returned_probe_bounds
    (log10 : Z -> Q) (depth : nat) (n d : Z) (lat mem : Q)
    (qps : Z) (uc : string) (gpu : bool) (r x : Recommendation) (nlist nprobe : Z) :
  recommend log10 depth n d lat mem qps uc gpu = Ok r ->
  In x (r :: alternatives r) ->
  params x !! "nlist" = Some nlist ->
  params x !! "nprobe" = Some nprobe ->
  100 <= nlist <= 16384 /\ 16 <= nprobe <= nlist.
Proof.
  intros Hr Hx Hl Hp.
  apply recommend_returned_cases in Hr
    as [[_ ->]|[[_ ->]|[Hn [Hr|[Hr|Hr]]]]].
  - cbn in Hx. destruct Hx as [<-|[]]. discriminate Hl.
  - cbn in Hx. destruct Hx as [<-|[]]. discriminate Hl.
  - pose proof (sqrt_mid_range n Hn).
    apply ivf_sq8_inv in Hr as (_ & _ & Ha & Hl' & Hp'). rewrite Ha in Hx.
    destruct Hx as [<-|[]]. rewrite Hl' in Hl. rewrite Hp' in Hp.
    injection Hl as <-. injection Hp as <-. root_bounds.
  - pose proof (sqrt_mid_range n Hn).
    pose proof (ivf_pq_params n d r Hr) as (Hl' & Hp' & _). unfold clamp in Hl', Hp'.
    apply ivf_pq_inv in Hr as (_ & _ & a & Ha & Halts). rewrite Halts in Hx.
    apply ivf_sq8_inv in Ha as (_ & _ & _ & Hla & Hpa).
    destruct Hx as [<-|[<-|[<-|[]]]].
    + rewrite Hl' in Hl. rewrite Hp' in Hp. injection Hl as <-. injection Hp as <-. root_bounds.
    + rewrite Hla in Hl. rewrite Hpa in Hp. injection Hl as <-. injection Hp as <-. root_bounds.
    + discriminate Hl.
  - pose proof (sqrt_mid_range n Hn).
    pose proof (gpu_ivf_params n d mem r Hr) as (Hl' & Hp').
    apply gpu_ivf_inv in Hr as (_ & _ & Ha). rewrite Ha in Hx.
    destruct Hx as [<-|[]]. rewrite Hl' in Hl. rewrite Hp' in Hp.
    injection Hl as <-. injection Hp as <-. root_bounds.
Qed.

Lemma returned_probe_bounds_witness :
  exists r,
    recommend log10_floor recursion_limit 800000 128 50 0.1 100 "general" false = Ok r /\
    params r !! "nlist" = Some 894 /\ params r !! "nprobe" = Some 134 /\
    (100 <= 894 <= 16384 /\ 16 <= 134 <= 894).
Proof.
  eexists. split; [vm_compute; reflexivity|].
  split; [vm_compute; reflexivity|]. split; [vm_compute; reflexivity|].
  eapply (returned_probe_bounds log10_floor recursion_limit 800000 128 50 0.1 100
            "general" false);
    [vm_compute; reflexivity | left; reflexivity
    | vm_compute; reflexivity | vm_compute; reflexivity].
Defined.

(** On a valid requirement every estimate of a returned recommendation
    and of its alternatives is positive, its recall lies between 0.90 and
    1 and its confidence between 0.85 and 0.99. *)
Theorem returned_estimates_positive
    (log10 : Z -> Q) (depth : nat) (n d : Z) (lat mem : Q)
    (qps : Z) (uc : string) (gpu : bool) (r : Recommendation) :
  valid_requirement n d lat mem ->
  recommend log10 depth n d lat mem qps uc gpu = Ok r ->
  Forall (fun x =>
            (0 < memory_gb x)%Q /\ (0 < build_time_min x)%Q /\
            (0 < query_latency_p95 x)%Q /\
            (0.90 <= recall_at_10 x <= 1)%Q /\ (0.85 <= confidence x <= 0.99)%Q)
         (r :: alternatives r).
Proof.
  intros (Hn & Hd & Hlat & _) Hr.
  pose proof (truediv_pos (n * d * 4) GiB ltac:(nia) GiB_pos) as Hm.
  pose proof (truediv_pos (n * 100) GiB ltac:(lia) GiB_pos) as Hm'.
  pose proof (truediv_pos n 50000 Hn ltac:(lia)).
  pose proof (truediv_pos n 80000 Hn ltac:(lia)).
  pose proof (truediv_pos n 90000 Hn ltac:(lia)).
  pose proof (truediv_pos n 500000 Hn ltac:(lia)).
  pose proof (truediv_pos n 1000000 Hn ltac:(lia)).
  assert (Hsq : forall a, _recommend_ivf_sq8 n d = Ok a ->
            a = {| index_type := IVF_SQ8;
                   params := params a;
                   memory_gb := (truediv (n * d * 4) GiB * 0.6)%Q;
                   build_time_min := (truediv n 90000 * 2.5)%Q;
                   query_latency_p95 := (12 + truediv n 1000000 * 5.5)%Q;
                   recall_at_10 := 0.95%Q;
                   reason := reason a;
                   confidence := 0.87%Q;
                   alternatives := [] |}).
  { intros a. unfold _recommend_ivf_sq8. destruct (int_sqrt n); unbind; [|discriminate].
    intros [= <-]. reflexivity. }
  apply recommend_returned_cases in Hr
    as [[_ ->]|[[_ ->]|[_ [Hr|[Hr|Hr]]]]].
  - repeat constructor; cbn; lra.
  - repeat constructor; cbn; lra.
  - rewrite (Hsq r Hr). repeat constructor; cbn; lra.
  - pose proof (ivf_pq_inv n d r Hr) as (_ & _ & a & Ha & Halts).
    unfold _recommend_ivf_pq in Hr. rewrite Ha in Hr.
    destruct (int_sqrt n); unbind; [|discriminate]. injection Hr as <-.
    cbn [alternatives]. rewrite (Hsq a Ha). repeat constructor; cbn; lra.
  - unfold _recommend_gpu_ivf in Hr. destruct (int_sqrt n); unbind; [|discriminate].
    injection Hr as <-. repeat constructor; cbn; lra.
Qed.

Lemma returned_estimates_positive_witness :
  exists r,
    recommend log10_floor recursion_limit 800000 128 50 0.1 100 "general" false = Ok r /\
    Forall (fun x =>
              (0 < memory_gb x)%Q /\ (0 < build_time_min x)%Q /\
              (0 < query_latency_p95 x)%Q /\
              (0.90 <= recall_at_10 x <= 1)%Q /\ (0.85 <= confidence x <= 0.99)%Q)
           (r :: alternatives r).
Proof.
  eexists. split; [vm_compute; reflexivity|].
  apply (returned_estimates_positive log10_floor recursion_limit 800000 128 50 0.1 100
           "general" false).
  - unfold valid_requirement. repeat split; reflexivity.
  - vm_compute; reflexivity.
Defined.

(** ** The alternatives of IVF_PQ *)

(** A returned IVF_PQ recommendation carries the IVF_SQ8 recommendation of
    the same dataset, whose memory estimate is 2.4 times its own, and a
    DISK_ANN recommendation built for a latency requirement of 100 ms
    whatever the caller's requirement is: a search list of 50 and a
    latency estimate of 150 ms. *)
Theorem ivf_pq_alternatives
    (log10 : Z -> Q) (depth : nat) (n d : Z) (lat mem : Q)
    (qps : Z) (uc : string) (gpu : bool) (r : Recommendation) :
  recommend log10 depth n d lat mem qps uc gpu = Ok r ->
  index_type r = IVF_PQ ->
  exists sq8 disk,
    alternatives r = [sq8; disk] /\
    _recommend_ivf_sq8 n d = Ok sq8 /\
    (memory_gb sq8 == 2.4 * memory_gb r)%Q /\
    disk = _recommend_diskann n d 100 /\
    params disk !! "search_list_size" = Some 50 /\
    (query_latency_p95 disk == 150)%Q.
Proof.
  intros Hr Hf.
  apply recommend_returned_cases in Hr
    as [[_ ->]|[[_ ->]|[_ [Hr|[Hr|Hr]]]]]; try discriminate Hf.
  - apply ivf_sq8_inv in Hr as (_ & Hf' & _). congruence.
  - pose proof (ivf_pq_params n d r Hr) as (_ & _ & _ & _ & Hmem).
    apply ivf_pq_inv in Hr as (_ & _ & a & Ha & Halts).
    exists a, (_recommend_diskann n d 100).
    split; [exact Halts|]. split; [exact Ha|]. split; [|repeat split; reflexivity].
    rewrite Hmem. unfold _recommend_ivf_sq8 in Ha.
    destruct (int_sqrt n); unbind; [|discriminate]. injection Ha as <-.
    cbn [memory_gb]. ring.
  - apply gpu_ivf_inv in Hr as (_ & Hf' & _). congruence.
Qed.

Lemma ivf_pq_alternatives_witness :
  exists r sq8 disk,
    recommend log10_floor recursion_limit 800000 128 50 0.1 100 "general" false = Ok r /\
    alternatives r = [sq8; disk] /\
    _recommend_ivf_sq8 800000 128 = Ok sq8 /\
    (memory_gb sq8 == 2.4 * memory_gb r)%Q /\
    disk = _recommend_diskann 800000 128 100 /\
    params disk !! "search_list_size" = Some 50 /\
    (query_latency_p95 disk == 150)%Q.
Proof.
  eexists.
  destruct (ivf_pq_alternatives log10_floor recursion_limit 800000 128 50 0.1 100
              "general" false _
              ltac:(vm_compute; reflexivity) eq_refl) as (sq8 & disk & H).
  exists sq8, disk. split; [reflexivity | exact H].
Defined.

(** ** The PQ sub-vector count and the dimensions *)

(** The [m] of an IVF_PQ recommendation is between 4 and 32 and divides
    [dimensions] exactly when [dimensions] is a multiple of four: on any
    other dimension the recommended [m] is the fallback 8, which does not
    divide it. The number of bits is always 8. *)
Theorem ivf_pq_m_divides (n d : Z) :
  0 <= n ->
  exists r m, _recommend_ivf_pq n d = Ok r /\
    params r !! "m" = Some m /\ params r !! "nbits" = Some 8 /\
    4 <= m <= 32 /\
    ((m | d) <-> (4 | d)) /\
    (~ (4 | d) -> m = 8).
Proof.
  intros Hn.
  destruct (ivf_pq_returns n d Hn) as [r Hr].
  pose proof (ivf_pq_params n d r Hr) as (_ & _ & Hm & Hb & _).
  exists r, (_calculate_pq_m d). split; [exact Hr|]. split; [exact Hm|]. split; [exact Hb|].
  destruct (calculate_pq_m_spec d) as (Hin & Hmax & Hnone).
  assert (H4 : (4 | _calculate_pq_m d)).
  { cbn in Hin. destruct Hin as [<-|[<-|[<-|[<-|[]]]]];
      [exists 8 | exists 4 | exists 2 | exists 1]; reflexivity. }
  split; [cbn in Hin; lia|]. split; [split|].
  - intros Hd. apply (Z.divide_trans _ _ _ H4 Hd).
  - intros Hd. apply (Hmax 4); [cbn; tauto | exact Hd].
  - intros Hd. apply Hnone. intros k Hk Hkd. apply Hd.
    assert (4 | k) as Hk4
      by (cbn in Hk; destruct Hk as [<-|[<-|[<-|[<-|[]]]]];
          [exists 8 | exists 4 | exists 2 | exists 1]; reflexivity).
    apply (Z.divide_trans _ _ _ Hk4 Hkd).
Qed.

Lemma ivf_pq_m_divides_witness :
  exists r m, _recommend_ivf_pq 1000000 102 = Ok r /\
    params r !! "m" = Some m /\ params r !! "nbits" = Some 8 /\
    4 <= m <= 32 /\
    ((m | 102) <-> (4 | 102)) /\
    (~ (4 | 102) -> m = 8).
Proof.
  apply (ivf_pq_m_divides 1000000 102). lia.
Defined.

(** ** DISK_ANN *)

(** For a latency requirement that is not negative the search list size is
    the floor of half the requirement; and for a positive one the latency
    estimate, one and a half times the requirement, exceeds it. The memory
    estimate does not depend on the dimensions. *)
Theorem diskann_parameters (n d d' : Z) (lat : Q) :
  (0 <= lat)%Q ->
  let r := _recommend_diskann n d lat in
  exists s, params r !! "search_list_size" = Some s /\
    (inject_Z s <= lat / 2 < inject_Z s + 1)%Q /\
    dom (params r) = {["search_list_size"]} /\
    ((0 < lat)%Q -> (lat < query_latency_p95 r)%Q) /\
    memory_gb r = memory_gb (_recommend_diskann n d' lat).
Proof.
  intros Hlat r. exists (Qfloor (lat / 2)).
  assert (0 <= lat / 2)%Q as Hhalf by (apply Qle_shift_div_l; [reflexivity | lra]).
  split.
  - subst r. unfold _recommend_diskann. cbn [params].
    rewrite int_of_float_floor by exact Hhalf. apply lookup_singleton_eq.
  - split; [split; [apply Qfloor_le|]|].
    + rewrite <- (inject_Z_plus _ 1). apply Qlt_floor.
    + split; [apply dom_singleton_L|]. split; [|reflexivity].
      intros Hpos. subst r. cbn [query_latency_p95 _recommend_diskann]. lra.
Qed.

Lemma diskann_parameters_witness :
  exists s, params (_recommend_diskann 200000000 768 25) !! "search_list_size" = Some s /\
    (inject_Z s <= 25 / 2 < inject_Z s + 1)%Q /\
    dom (params (_recommend_diskann 200000000 768 25)) = {["search_list_size"]} /\
    ((0 < 25)%Q -> (25 < query_latency_p95 (_recommend_diskann 200000000 768 25))%Q) /\
    memory_gb (_recommend_diskann 200000000 768 25)
    = memory_gb (_recommend_diskann 200000000 128 25).
Proof.
  apply (diskann_parameters 200000000 768 128 25). discriminate.
Defined.

(** ** Memory estimates across the families *)

(** For one dataset of positive size and dimension the memory estimates
    are ordered as the compression is: IVF_PQ below IVF_SQ8 below FLAT
    below IVF_FLAT below GPU_IVF_FLAT. *)
Theorem memory_ladder (n d : Z) (mem : Q) :
  0 < n -> 0 < d ->
  exists pq sq8 build gpu,
    _recommend_ivf_pq n d = Ok pq /\ _recommend_ivf_sq8 n d = Ok sq8 /\
    _recommend_ivf_flat_body n d = Ok build /\ _recommend_gpu_ivf n d mem = Ok gpu /\
    forall alts,
      (memory_gb pq < memory_gb sq8)%Q /\
      (memory_gb sq8 < memory_gb (_recommend_flat n d))%Q /\
      (memory_gb (_recommend_flat n d) < memory_gb (build alts))%Q /\
      (memory_gb (build alts) < memory_gb gpu)%Q.
Proof.
  intros Hn Hd.
  pose proof (truediv_pos (n * d * 4) GiB ltac:(nia) GiB_pos) as Hm.
  unfold _recommend_ivf_pq, _recommend_ivf_sq8, _recommend_ivf_flat_body,
    _recommend_gpu_ivf.
  rewrite int_sqrt_nonneg by lia. unbind.
  do 4 eexists. repeat (split; [reflexivity|]).
  intros alts. cbn [memory_gb _recommend_flat]. repeat split; lra.
Qed.

Lemma memory_ladder_witness :
  exists pq sq8 build gpu,
    _recommend_ivf_pq 1000000 768 = Ok pq /\ _recommend_ivf_sq8 1000000 768 = Ok sq8 /\
    _recommend_ivf_flat_body 1000000 768 = Ok build /\
    _recommend_gpu_ivf 1000000 768 16 = Ok gpu /\
    forall alts,
      (memory_gb pq < memory_gb sq8)%Q /\
      (memory_gb sq8 < memory_gb (_recommend_flat 1000000 768))%Q /\
      (memory_gb (_recommend_flat 1000000 768) < memory_gb (build alts))%Q /\
      (memory_gb (build alts) < memory_gb gpu)%Q.
Proof.
  apply (memory_ladder 1000000 768 16); lia.
Defined.

(** ** Inputs without influence *)

(** The use case has no influence on the outcome of [recommend]; without
    a GPU the throughput target has none, and with a target of at most
    5,000 queries per second the GPU flag has none. Past 100,000,000
    vectors, and below 10,000, the memory budget, the throughput target
    and the GPU flag have none. *)
Theorem recommend_inert_inputs
    (log10 : Z -> Q) (depth : nat) (n d : Z) (lat mem mem' : Q)
    (qps qps' : Z) (uc uc' : string) (gpu gpu' : bool) :
  recommend log10 depth n d lat mem qps uc gpu
  = recommend log10 depth n d lat mem qps uc' gpu /\
  recommend log10 depth n d lat mem qps uc false
  = recommend log10 depth n d lat mem qps' uc' false /\
  (qps <= 5000 -> qps' <= 5000 ->
   recommend log10 depth n d lat mem qps uc gpu
   = recommend log10 depth n d lat mem qps' uc' gpu') /\
  (n < 10000 \/ 100000000 < n ->
   recommend log10 depth n d lat mem qps uc gpu
   = recommend log10 depth n d lat mem' qps' uc' gpu').
Proof.
  unfold recommend. split; [reflexivity|]. repeat split.
  - rewrite !andb_false_r. reflexivity.
  - intros Hq Hq'.
    destruct (Z.ltb_spec 5000 qps); [lia|]. destruct (Z.ltb_spec 5000 qps'); [lia|].
    reflexivity.
  - intros Hn.
    destruct (Z.ltb_spec n 10000); [reflexivity|].
    destruct (Z.ltb_spec 100000000 n); [reflexivity | lia].
Qed.

(** ** The command-line front end *)

Lemma latency_table_values (latency : string) (ms : Z) :
  latency_table !! latency = Some ms ->
  (latency = "< 10ms (real-time)" /\ ms = 10) \/
  (latency <> "< 10ms (real-time)" /\ In ms [30; 50; 100; 200]).
Proof.
  intros H. apply elem_of_list_to_map_2 in H.
  repeat (apply elem_of_cons in H as [[= -> ->]|H]);
    [left | right | right | right | right | apply elem_of_nil in H; contradiction];
    (split; [reflexivity || discriminate | reflexivity || (cbn; tauto)]).
Qed.

(** A latency requirement of 30 ms or more is read by rule 3, which it
    fails, and by the DISK_ANN method only. *)
Lemma recommend_slow_latency
    (log10 : Z -> Q) (depth : nat) (n d : Z) (lat lat' mem : Q)
    (qps : Z) (uc : string) (gpu : bool) :
  n <= 100000000 -> ~ (lat < 30)%Q -> ~ (lat' < 30)%Q ->
  recommend log10 depth n d lat mem qps uc gpu
  = recommend log10 depth n d lat' mem qps uc gpu.
Proof.
  intros Hn Hl Hl'. unfold recommend.
  destruct (Z.ltb_spec n 10000); [reflexivity|].
  destruct (Z.ltb_spec 100000000 n); [lia|].
  destruct (Qltb_spec lat 30); [contradiction|].
  destruct (Qltb_spec lat' 30); [contradiction|].
  reflexivity.
Qed.

(** From the command line the latency answer matters little: a label that
    is not one of the five raises [KeyError]; and up to 100,000,000 vectors
    the four labels other than "< 10ms (real-time)" lead to one and the
    same outcome, since rule 3 asks for strictly less than 30 ms and
    "< 30ms (interactive)" stands for 30. *)
Theorem cli_latency_labels
    (log10 : Z -> Q) (depth : nat) (n d : Z) (latency latency' : string) (mem : Q)
    (qps : Z) (uc : string) (gpu : bool) :
  (latency_table !! latency = None <->
   cli_recommend log10 depth n d latency mem qps uc gpu = None) /\
  (n <= 100000000 ->
   latency <> "< 10ms (real-time)" -> latency' <> "< 10ms (real-time)" ->
   latency_table !! latency <> None -> latency_table !! latency' <> None ->
   cli_recommend log10 depth n d latency mem qps uc gpu
   = cli_recommend log10 depth n d latency' mem qps uc gpu).
Proof.
  unfold cli_recommend. split.
  - destruct (latency_table !! latency); cbn; split; congruence.
  - intros Hn Hl Hl' Hs Hs'.
    destruct (latency_table !! latency) as [ms|] eqn:E; [|congruence].
    destruct (latency_table !! latency') as [ms'|] eqn:E'; [|congruence].
    cbn. f_equal.
    assert (Hslow : forall l m, latency_table !! l = Some m ->
              l <> "< 10ms (real-time)" -> ~ (inject_Z m < 30)%Q).
    { intros l m Hm Hne.
      apply latency_table_values in Hm as [[-> _]|[_ Hin]]; [congruence|].
      cbn in Hin. destruct Hin as [<-|[<-|[<-|[<-|[]]]]]; discriminate. }
    apply recommend_slow_latency; eauto.
Qed.

(** More than 100,000,000 vectors take more than 9 GB in the DISK_ANN
    estimate. *)
Lemma diskann_memory_floor (n d : Z) (lat : Q) :
  100000000 < n -> (9 < memory_gb (_recommend_diskann n d lat))%Q.
Proof.
  intros Hn. cbn [memory_gb _recommend_diskann]. unfold truediv.
  apply Qlt_shift_div_l; [reflexivity|].
  change 9%Q with (inject_Z 9). rewrite <- inject_Z_mult, <- Zlt_Qlt.
  change GiB with 1073741824. lia.
Qed.

(** What the performance table shows. A DISK_ANN recommendation is always
    marked as possibly exceeding the latency target, and as exceeding the
    memory budget when the budget is 9 GB or less; a FLAT or GPU_IVF_FLAT
    one is never marked for latency; and the slice [alternatives[:2]]
    drops no alternative. *)
Theorem cli_performance_table
    (log10 : Z -> Q) (depth : nat) (n d : Z) (latency : string) (ms : Z) (mem : Q)
    (qps : Z) (uc : string) (gpu : bool) (r : Recommendation) :
  latency_table !! latency = Some ms ->
  cli_recommend log10 depth n d latency mem qps uc gpu = Some (Ok r) ->
  (index_type r = DISK_ANN -> cli_latency_ok r ms = false) /\
  (index_type r = DISK_ANN -> (mem <= 9)%Q -> cli_memory_ok r mem = false) /\
  (index_type r = FLAT \/ index_type r = GPU_IVF_FLAT -> cli_latency_ok r ms = true) /\
  cli_alternatives r = alternatives r.
Proof.
  intros Hms. unfold cli_recommend. rewrite Hms. cbn. intros [= Hr].
  assert (10 <= ms) as Hpos.
  { apply latency_table_values in Hms as [[_ ->]|[_ Hin]]; [lia|].
    cbn in Hin. destruct Hin as [<-|[<-|[<-|[<-|[]]]]]; lia. }
  assert (10 <= inject_Z ms)%Q as HposQ by (rewrite <- (Zle_Qle 10); exact Hpos).
  pose proof (returned_alternatives_shape log10 depth n d (inject_Z ms) mem qps uc gpu r Hr)
    as (_ & _ & Hlen & _).
  assert (Hdisk : index_type r = DISK_ANN ->
            100000000 < n /\ r = _recommend_diskann n d (inject_Z ms)).
  { intros Hf.
    apply recommend_returned_cases in Hr
      as [[_ ->]|[[Hn ->]|[_ [Hr|[Hr|Hr]]]]]; try discriminate Hf.
    - split; [exact Hn | reflexivity].
    - apply ivf_sq8_inv in Hr as (_ & Hf' & _). congruence.
    - apply ivf_pq_inv in Hr as (_ & Hf' & _). congruence.
    - apply gpu_ivf_inv in Hr as (_ & Hf' & _). congruence. }
  split; [|split; [|split]].
  - intros Hf. destruct (Hdisk Hf) as [_ ->].
    unfold cli_latency_ok. cbn [query_latency_p95 _recommend_diskann].
    destruct (Qltb_spec (inject_Z ms * 1.5) (inject_Z ms * 1.2)); [lra | reflexivity].
  - intros Hf Hmem. destruct (Hdisk Hf) as [Hn ->].
    pose proof (diskann_memory_floor n d (inject_Z ms) Hn) as Hfloor.
    unfold cli_memory_ok.
    destruct (Qltb_spec (memory_gb (_recommend_diskann n d (inject_Z ms))) mem);
      [lra | reflexivity].
  - intros Hf.
    apply recommend_returned_cases in Hr
      as [[_ ->]|[[_ ->]|[_ [Hr|[Hr|Hr]]]]].
    + unfold cli_latency_ok. cbn [query_latency_p95 _recommend_flat].
      destruct (Qltb_spec 5 (inject_Z ms * 1.2)); [reflexivity | lra].
    + destruct Hf as [Hf|Hf]; discriminate Hf.
    + apply ivf_sq8_inv in Hr as (_ & Hf' & _). destruct Hf; congruence.
    + apply ivf_pq_inv in Hr as (_ & Hf' & _). destruct Hf; congruence.
    + unfold _recommend_gpu_ivf in Hr. destruct (int_sqrt n); unbind; [|discriminate].
      injection Hr as <-. unfold cli_latency_ok. cbn [query_latency_p95].
      destruct (Qltb_spec 5 (inject_Z ms * 1.2)); [reflexivity | lra].
  - unfold cli_alternatives. apply take_ge. exact Hlen.
Qed.

Lemma cli_performance_table_witness :
  exists r,
    cli_recommend log10_floor recursion_limit 200000000 768 "< 50ms (responsive)"
      8 100 "RAG/QA System" false = Some (Ok r) /\
    (index_type r = DISK_ANN -> cli_latency_ok r 50 = false) /\
    (index_type r = DISK_ANN -> (8 <= 9)%Q -> cli_memory_ok r 8 = false) /\
    (index_type r = FLAT \/ index_type r = GPU_IVF_FLAT -> cli_latency_ok r 50 = true) /\
    cli_alternatives r = alternatives r.
Proof.
  eexists. split; [vm_compute; reflexivity|].
  apply (cli_performance_table log10_floor recursion_limit 200000000 768
           "< 50ms (responsive)" 50 8 100 "RAG/QA System" false);
    vm_compute; reflexivity.
Defined.
